(** * HashiCups order resource: a shallow embedding of
      [hashicups/order_resource.go] and the properties of its handlers.

    The handlers [Create], [Read], [Update] and [Delete] of the order
    resource are embedded as finite interaction programs: every call on the
    HashiCups client and every reading of the clock is a node of the
    program, answered by an environment.  The Terraform state a handler
    leaves behind is the [State] field of its response. *)

From Stdlib Require Import ZArith List String Ascii Bool Lia.
From Stdlib Require Import DecimalString DecimalZ.
Import ListNotations.
Local Open Scope Z_scope.
Local Open Scope string_scope.
Local Open Scope list_scope.

Set Implicit Arguments.

(** ** Go scalars *)

(** Go's [int] and [int64] are both 64-bit two's complement integers on the
    platforms the provider is built for; a conversion between them wraps. *)
Definition int := Z.
Definition int64 := Z.

Definition wrap64 (z : Z) : Z := (z + 2 ^ 63) mod 2 ^ 64 - 2 ^ 63.

Definition int64_range (z : Z) : Prop := - 2 ^ 63 <= z < 2 ^ 63.

(** [int(x)] for [x : int64]. *)
Definition int_of_int64 (x : int64) : int := wrap64 x.

(** [int64(x)] for [x : int]. *)
Definition int64_of_int (x : int) : int64 := wrap64 x.

(** A [float64] is carried as its IEEE-754 bit pattern: the handlers only
    copy prices, they never compute with them. *)
Definition float64 := Z.

(** [strconv.Itoa]: the decimal text of an integer, with a leading [-] for a
    negative one. *)
Definition Itoa (i : int) : string := NilZero.string_of_int (Z.to_int i).


(** ** Values of the plugin framework ([types.String], [types.Int64],
       [types.Float64]): null, unknown or known. *)
Module types.

Inductive String : Type :=
| StringNull
| StringUnknown
| StringValue (s : string).

Inductive Int64 : Type :=
| Int64Null
| Int64Unknown
| Int64Value (i : int64).

Inductive Float64 : Type :=
| Float64Null
| Float64Unknown
| Float64Value (f : float64).

(** [ValueString] gives the empty text for null and unknown. *)
Definition ValueString (v : String) : string :=
  match v with
  | StringValue s => s
  | _ => ""
  end.

(** [ValueInt64] gives 0 for null and unknown. *)
Definition ValueInt64 (v : Int64) : int64 :=
  match v with
  | Int64Value i => i
  | _ => 0
  end.

End types.

(** ** The resource's model structs *)

Module orderItemCoffeeModel.
Record t : Type := mk {
  ID : types.Int64;
  Name : types.String;
  Teaser : types.String;
  Description : types.String;
  Price : types.Float64;
  Image : types.String
}.
End orderItemCoffeeModel.

Module orderItemModel.
Record t : Type := mk {
  Coffee : orderItemCoffeeModel.t;
  Quantity : types.Int64
}.
End orderItemModel.

Module orderResourceModel.
Record t : Type := mk {
  ID : types.String;
  Items : list orderItemModel.t;
  LastUpdated : types.String
}.

(** The zero value of the struct, what [var plan orderResourceModel]
    holds before it is filled.  The zero [types.String] is null. *)
Definition zero : t := mk types.StringNull [] types.StringNull.
End orderResourceModel.

(** ** The client's wire structs

    The handlers build and read [OrderItem], [Coffee] and [Order] values of
    the HashiCups client; the fields below are the ones they touch. *)

Module Ingredient.
Record t : Type := mk { ID : int }.
End Ingredient.

Module Coffee.
Record t : Type := mk {
  ID : int;
  Name : string;
  Teaser : string;
  Description : string;
  Price : float64;
  Image : string;
  Ingredient : list Ingredient.t
}.
End Coffee.

Module OrderItem.
Record t : Type := mk {
  Coffee : Coffee.t;
  Quantity : int
}.
End OrderItem.

Module Order.
Record t : Type := mk {
  ID : int;
  Items : list OrderItem.t
}.
End Order.

(** Modelled from the spec: the error values of the client, which is not
    part of the sources at hand.  Section 7 of the specification names the
    kinds; a Go [error] also carries the text its [Error()] method gives,
    which is all the handlers read. *)
Inductive error_kind : Type :=
| TransportError
| RemoteError (status : Z) (body : string)
| NotFoundError
| DecodeError
| MappingError
| CancelledError.

Record error : Type := mkError {
  kind : error_kind;
  Error : string
}.

(** A Go result pair [(v, err)] with [err] nil or not. *)
Inductive result (A : Type) : Type :=
| Ok (a : A)
| Err (err : error).
Arguments Ok {A} a.
Arguments Err {A} err.

(** ** Diagnostics *)
Module diag.

Inductive Severity : Type := SeverityError | SeverityWarning.

Record Diagnostic : Type := mk {
  severity : Severity;
  Summary : string;
  Detail : string
}.

Definition Diagnostics := list Diagnostic.

Definition severity_eqb (a b : Severity) : bool :=
  match a, b with
  | SeverityError, SeverityError => true
  | SeverityWarning, SeverityWarning => true
  | _, _ => false
  end.

Definition Equal (a b : Diagnostic) : bool :=
  severity_eqb (severity a) (severity b)
  && String.eqb (Summary a) (Summary b)
  && String.eqb (Detail a) (Detail b).

Definition Contains (diags : Diagnostics) (d : Diagnostic) : bool :=
  existsb (Equal d) diags.

(** [Append] skips a diagnostic the collection already holds. *)
Fixpoint Append (diags : Diagnostics) (new : list Diagnostic) : Diagnostics :=
  match new with
  | [] => diags
  | d :: rest =>
      if Contains diags d then Append diags rest
      else Append (diags ++ [d]) rest
  end.

Definition NewErrorDiagnostic (summary detail : string) : Diagnostic :=
  mk SeverityError summary detail.

Definition AddError (diags : Diagnostics) (summary detail : string)
  : Diagnostics :=
  Append diags [NewErrorDiagnostic summary detail].

Definition is_error (d : Diagnostic) : bool :=
  severity_eqb (severity d) SeverityError.

Definition HasError (diags : Diagnostics) : bool :=
  existsb is_error diags.

End diag.

(** ** Plan and state objects ([tfsdk.Plan], [tfsdk.State])

    Either the resource's object or nothing (the null object: no plan, or a
    resource absent from the state). *)
Module tfsdk.

Definition State := option orderResourceModel.t.
Definition Plan := option orderResourceModel.t.

(** [Get] decodes the object into the model struct; the null object does
    not fit a struct and is reported. *)
Definition Get (raw : option orderResourceModel.t)
  : diag.Diagnostics * orderResourceModel.t :=
  match raw with
  | Some m => ([], m)
  | None =>
      ([diag.NewErrorDiagnostic "Value Conversion Error"
          "unhandled null value"],
       orderResourceModel.zero)
  end.

(** [Set] stores the struct as the object. *)
Definition Set_ (m : orderResourceModel.t)
  : diag.Diagnostics * State :=
  ([], Some m).

End tfsdk.

Module resource.

Record CreateRequest : Type := mkCreateRequest {
  CreatePlan : tfsdk.Plan
}.

Record ReadRequest : Type := mkReadRequest {
  ReadState : tfsdk.State
}.

Record UpdateRequest : Type := mkUpdateRequest {
  UpdatePlan : tfsdk.Plan;
  UpdateState : tfsdk.State
}.

Record DeleteRequest : Type := mkDeleteRequest {
  DeleteState : tfsdk.State
}.

(** The four response structs have the same two fields. *)
Record Response : Type := mkResponse {
  State : tfsdk.State;
  Diagnostics : diag.Diagnostics
}.

Definition with_Diagnostics (r : Response) (d : diag.Diagnostics)
  : Response :=
  mkResponse (State r) d.

Definition with_State (r : Response) (s : tfsdk.State) : Response :=
  mkResponse s (Diagnostics r).

End resource.

(** ** Handler programs

    A handler is a finite program over the client's four order calls and the
    clock.  [Panic] is a Go run-time panic, which ends the program without a
    response. *)

Inductive call : Type -> Type :=
| CreateOrder (items : list OrderItem.t) : call (result Order.t)
| GetOrder (orderID : string) : call (result Order.t)
| UpdateOrder (orderID : string) (items : list OrderItem.t)
  : call (result Order.t)
| DeleteOrder (orderID : string) : call (option error).

Inductive panic : Type :=
| IndexOutOfRange (index length : nat).

Inductive io (A : Type) : Type :=
| Ret (a : A)
| Panic (p : panic)
| Call (X : Type) (c : call X) (k : X -> io A)
| Now (k : string -> io A).
Arguments Ret {A} a.
Arguments Panic {A} p.
Arguments Call {A X} c k.
Arguments Now {A} k.

(** One answered client call. *)
Inductive event : Type :=
| Event (X : Type) (c : call X) (answer : X).
Arguments Event {X} c answer.

(** An environment: a client and a clock over some state of the world.  The
    clock gives [time.Now().Format(time.RFC850)]. *)
Record World (W : Type) : Type := mkWorld {
  client : forall X, call X -> W -> X * W;
  clock : W -> string * W
}.

Inductive outcome (A : Type) : Type :=
| Returned (a : A)
| Panicked (p : panic).
Arguments Returned {A} a.
Arguments Panicked {A} p.

(** [run] executes a program in an environment and gives its outcome, the
    world it leaves and the client calls it made, in order. *)
Fixpoint run {W A : Type} (env : World W) (p : io A) (w : W)
  : outcome A * W * list event :=
  match p with
  | Ret a => (Returned a, w, [])
  | Panic e => (Panicked e, w, [])
  | Call c k =>
      let '(x, w1) := client env c w in
      let '(o, w2, tr) := run env (k x) w1 in
      (o, w2, Event c x :: tr)
  | Now k =>
      let '(t, w1) := clock env w in
      run env (k t) w1
  end.

Definition outcome_of {W A : Type} (r : outcome A * W * list event)
  : outcome A := fst (fst r).
Definition world_of {W A : Type} (r : outcome A * W * list event)
  : W := snd (fst r).
Definition trace_of {W A : Type} (r : outcome A * W * list event)
  : list event := snd r.

(** Whether the client answered a call with an error. *)
Definition failed (e : event) : bool :=
  match e with
  | Event c x =>
      match c in call X return X -> bool with
      | CreateOrder _ | GetOrder _ | UpdateOrder _ _ =>
          fun r => match r with Ok _ => false | Err _ => true end
      | DeleteOrder _ =>
          fun r => match r with None => false | Some _ => true end
      end x
  end.

(** ** Field mapping *)

(** The wire item built from a planned item: the coffee's identifier and the
    quantity; every other field of the coffee is the zero value. *)
Definition toOrderItem (item : orderItemModel.t) : OrderItem.t :=
  OrderItem.mk
    (Coffee.mk
       (int_of_int64
          (types.ValueInt64
             (orderItemCoffeeModel.ID (orderItemModel.Coffee item))))
       "" "" "" 0 "" [])
    (int_of_int64 (types.ValueInt64 (orderItemModel.Quantity item))).

(** The loop [for _, item := range plan.Items { items = append(items, ...) }]. *)
Fixpoint toOrderItems (items : list OrderItem.t)
    (planItems : list orderItemModel.t) : list OrderItem.t :=
  match planItems with
  | [] => items
  | item :: rest => toOrderItems (items ++ [toOrderItem item]) rest
  end.

(** The model item built from an item of the server's answer. *)
Definition fromOrderItem (orderItem : OrderItem.t) : orderItemModel.t :=
  let coffee := OrderItem.Coffee orderItem in
  orderItemModel.mk
    (orderItemCoffeeModel.mk
       (types.Int64Value (int64_of_int (Coffee.ID coffee)))
       (types.StringValue (Coffee.Name coffee))
       (types.StringValue (Coffee.Teaser coffee))
       (types.StringValue (Coffee.Description coffee))
       (types.Float64Value (Coffee.Price coffee))
       (types.StringValue (Coffee.Image coffee)))
    (types.Int64Value (int64_of_int (OrderItem.Quantity orderItem))).

(** The loop of [Read] and [Update] that appends the answer's items to an
    emptied slice. *)
Fixpoint appendItems (stateItems : list orderItemModel.t)
    (orderItems : list OrderItem.t) : list orderItemModel.t :=
  match orderItems with
  | [] => stateItems
  | item :: rest => appendItems (stateItems ++ [fromOrderItem item]) rest
  end.

(** [s[i] = x] on a slice: a panic when [i] is not below the length. *)
Fixpoint slice_set {A : Type} (s : list A) (i : nat) (x : A)
  : option (list A) :=
  match s, i with
  | [], _ => None
  | _ :: rest, O => Some (x :: rest)
  | y :: rest, S j =>
      match slice_set rest j x with
      | Some rest' => Some (y :: rest')
      | None => None
      end
  end.

(** The loop of [Create],
    [for orderItemIndex, orderItem := range order.Items
       { plan.Items[orderItemIndex] = ... }],
    from index [orderItemIndex] on.  It gives the slice it leaves, or the
    panic of the first index out of range. *)
Fixpoint overwriteItems (planItems : list orderItemModel.t)
    (orderItemIndex : nat) (orderItems : list OrderItem.t)
  : panic + list orderItemModel.t :=
  match orderItems with
  | [] => inr planItems
  | orderItem :: rest =>
      match slice_set planItems orderItemIndex (fromOrderItem orderItem) with
      | Some planItems' => overwriteItems planItems' (S orderItemIndex) rest
      | None => inl (IndexOutOfRange orderItemIndex (List.length planItems))
      end
  end.

(** ** The handlers *)

Import resource.

Definition Create (request : CreateRequest) (response : Response)
  : io Response :=
  let '(diags, plan) := tfsdk.Get (CreatePlan request) in
  let response :=
    with_Diagnostics response (diag.Append (Diagnostics response) diags) in
  if diag.HasError (Diagnostics response) then Ret response
  else
    let items := toOrderItems [] (orderResourceModel.Items plan) in
    Call (CreateOrder items) (fun r =>
      match r with
      | Err err =>
          Ret (with_Diagnostics response
                 (diag.AddError (Diagnostics response)
                    "Error creating order"
                    ("An unexpected error was encountered trying to create the order."
                       ++ Error err)))
      | Ok order =>
          let planID := types.StringValue (Itoa (Order.ID order)) in
          match overwriteItems (orderResourceModel.Items plan) 0
                  (Order.Items order) with
          | inl p => Panic p
          | inr planItems =>
              Now (fun now =>
                let plan :=
                  orderResourceModel.mk planID planItems
                    (types.StringValue now) in
                let '(diags, state) := tfsdk.Set_ plan in
                let response := with_State response state in
                Ret (with_Diagnostics response
                       (diag.Append (Diagnostics response) diags)))
          end
      end).

Definition Read (request : ReadRequest) (response : Response)
  : io Response :=
  let '(diags, state) := tfsdk.Get (ReadState request) in
  let response :=
    with_Diagnostics response (diag.Append (Diagnostics response) diags) in
  if diag.HasError (Diagnostics response) then Ret response
  else
    let stateID := types.ValueString (orderResourceModel.ID state) in
    Call (GetOrder stateID) (fun r =>
      match r with
      | Err err =>
          Ret (with_Diagnostics response
                 (diag.AddError (Diagnostics response)
                    "Error Reading HashiCups Order"
                    ("Could not read HashiCups order ID " ++ stateID
                       ++ ": " ++ Error err)))
      | Ok order =>
          let state :=
            orderResourceModel.mk (orderResourceModel.ID state)
              (appendItems [] (Order.Items order))
              (orderResourceModel.LastUpdated state) in
          let '(diags, newState) := tfsdk.Set_ state in
          let response := with_State response newState in
          Ret (with_Diagnostics response
                 (diag.Append (Diagnostics response) diags))
      end).

Definition Update (req : UpdateRequest) (resp : Response) : io Response :=
  let '(diags, plan) := tfsdk.Get (UpdatePlan req) in
  let resp := with_Diagnostics resp (diag.Append (Diagnostics resp) diags) in
  if diag.HasError (Diagnostics resp) then Ret resp
  else
    let hashicupsItems := toOrderItems [] (orderResourceModel.Items plan) in
    let planID := types.ValueString (orderResourceModel.ID plan) in
    Call (UpdateOrder planID hashicupsItems) (fun r =>
      match r with
      | Err err =>
          Ret (with_Diagnostics resp
                 (diag.AddError (Diagnostics resp)
                    "Error Updating HashiCups Order"
                    ("Could not update order, unexpected error: "
                       ++ Error err)))
      | Ok _ =>
          Call (GetOrder planID) (fun r =>
            match r with
            | Err err =>
                Ret (with_Diagnostics resp
                       (diag.AddError (Diagnostics resp)
                          "Error Reading HashiCups Order"
                          ("Could not read HashiCups order ID " ++ planID
                             ++ ": " ++ Error err)))
            | Ok order =>
                Now (fun now =>
                  let plan :=
                    orderResourceModel.mk (orderResourceModel.ID plan)
                      (appendItems [] (Order.Items order))
                      (types.StringValue now) in
                  let '(diags, state) := tfsdk.Set_ plan in
                  let resp := with_State resp state in
                  Ret (with_Diagnostics resp
                         (diag.Append (Diagnostics resp) diags)))
            end)
      end).

Definition Delete (request : DeleteRequest) (response : Response)
  : io Response :=
  let '(diags, state) := tfsdk.Get (DeleteState request) in
  let response :=
    with_Diagnostics response (diag.Append (Diagnostics response) diags) in
  if diag.HasError (Diagnostics response) then Ret response
  else
    Call (DeleteOrder (types.ValueString (orderResourceModel.ID state)))
      (fun err =>
         match err with
         | Some err =>
             Ret (with_Diagnostics response
                    (diag.AddError (Diagnostics response)
                       "Error Deleting HashiCups Order"
                       ("Could not delete order, unexpected error: "
                          ++ Error err)))
         | None => Ret response
         end).

(** [State.SetAttribute] at the path of the [id] attribute: the attribute
    is set and every other attribute keeps what the state held; in a state
    without resource the other attributes are null. *)
Definition SetAttribute_id (state : tfsdk.State) (value : string)
  : tfsdk.State :=
  match state with
  | Some m =>
      Some (orderResourceModel.mk (types.StringValue value)
              (orderResourceModel.Items m) (orderResourceModel.LastUpdated m))
  | None =>
      Some (orderResourceModel.mk (types.StringValue value) []
              types.StringNull)
  end.

(** [resource.ImportStatePassthroughID] with the path of the [id]
    attribute.  The sources do not fix the version of the framework:
    [skipsEmptyID] tells whether it is one (1.15 and later) that sets
    nothing for the empty identifier. *)
Definition ImportStatePassthroughID (skipsEmptyID : bool)
    (requestID : string) (response : Response) : Response :=
  if skipsEmptyID && String.eqb requestID "" then response
  else with_State response (SetAttribute_id (State response) requestID).

(** [ImportState], under a framework that sets the attribute for every
    identifier: the identifier given on import goes to the [id] attribute
    of the state of the response. *)
Definition ImportState (requestID : string) (response : Response)
  : Response :=
  ImportStatePassthroughID false requestID response.

(** ** The schema, as far as the handlers' inputs depend on it *)
Module schema.

(** The [quantity] attribute: required, and declared without
    validators. *)
Record Int64Attribute : Type := mkInt64Attribute {
  Int64Required : bool;
  Int64Computed : bool;
  Int64Validators : list (int64 -> bool)
}.

Definition quantity : Int64Attribute := mkInt64Attribute true false [].

(** A value fits an attribute when every validator accepts it. *)
Definition accepts (a : Int64Attribute) (v : int64) : bool :=
  forallb (fun validate => validate v) (Int64Validators a).

(** [stringplanmodifier.UseStateForUnknown()], the plan modifier of the
    [id] attribute: with a resource in the state, an unknown planned
    value is replaced by the value of the state. *)
Definition UseStateForUnknown (state : tfsdk.State)
    (configValue planValue : types.String) : types.String :=
  match state with
  | None => planValue
  | Some s =>
      match planValue with
      | types.StringUnknown =>
          match configValue with
          | types.StringUnknown => planValue
          | _ => orderResourceModel.ID s
          end
      | _ => planValue
      end
  end.

(** The planned [id]: the attribute is computed, so it is null in the
    configuration and unknown in the proposed plan, before the plan
    modifier runs. *)
Definition plannedID (state : tfsdk.State) : types.String :=
  UseStateForUnknown state types.StringNull types.StringUnknown.

(** Equality of values, as the host compares a plan with a state. *)
Definition String_eqb (a b : types.String) : bool :=
  match a, b with
  | types.StringNull, types.StringNull => true
  | types.StringUnknown, types.StringUnknown => true
  | types.StringValue x, types.StringValue y => String.eqb x y
  | _, _ => false
  end.

Definition Int64_eqb (a b : types.Int64) : bool :=
  match a, b with
  | types.Int64Null, types.Int64Null => true
  | types.Int64Unknown, types.Int64Unknown => true
  | types.Int64Value x, types.Int64Value y => Z.eqb x y
  | _, _ => false
  end.

Definition Float64_eqb (a b : types.Float64) : bool :=
  match a, b with
  | types.Float64Null, types.Float64Null => true
  | types.Float64Unknown, types.Float64Unknown => true
  | types.Float64Value x, types.Float64Value y => Z.eqb x y
  | _, _ => false
  end.

Definition item_eqb (a b : orderItemModel.t) : bool :=
  let ca := orderItemModel.Coffee a in
  let cb := orderItemModel.Coffee b in
  Int64_eqb (orderItemCoffeeModel.ID ca) (orderItemCoffeeModel.ID cb)
  && String_eqb (orderItemCoffeeModel.Name ca) (orderItemCoffeeModel.Name cb)
  && String_eqb (orderItemCoffeeModel.Teaser ca)
       (orderItemCoffeeModel.Teaser cb)
  && String_eqb (orderItemCoffeeModel.Description ca)
       (orderItemCoffeeModel.Description cb)
  && Float64_eqb (orderItemCoffeeModel.Price ca)
       (orderItemCoffeeModel.Price cb)
  && String_eqb (orderItemCoffeeModel.Image ca) (orderItemCoffeeModel.Image cb)
  && Int64_eqb (orderItemModel.Quantity a) (orderItemModel.Quantity b).

Fixpoint items_eqb (a b : list orderItemModel.t) : bool :=
  match a, b with
  | [], [] => true
  | x :: a', y :: b' => item_eqb x y && items_eqb a' b'
  | _, _ => false
  end.

Definition model_eqb (a b : orderResourceModel.t) : bool :=
  String_eqb (orderResourceModel.ID a) (orderResourceModel.ID b)
  && items_eqb (orderResourceModel.Items a) (orderResourceModel.Items b)
  && String_eqb (orderResourceModel.LastUpdated a)
       (orderResourceModel.LastUpdated b).

(** The item the host proposes for a configured item: its user-specified
    fields, with the computed fields of the prior item at the same index,
    or null ones when the prior state has no item there. *)
Definition proposedItem (prior : option orderItemModel.t)
    (config : orderItemModel.t) : orderItemModel.t :=
  let coffeeID := orderItemCoffeeModel.ID (orderItemModel.Coffee config) in
  match prior with
  | Some p =>
      let c := orderItemModel.Coffee p in
      orderItemModel.mk
        (orderItemCoffeeModel.mk coffeeID (orderItemCoffeeModel.Name c)
           (orderItemCoffeeModel.Teaser c) (orderItemCoffeeModel.Description c)
           (orderItemCoffeeModel.Price c) (orderItemCoffeeModel.Image c))
        (orderItemModel.Quantity config)
  | None =>
      orderItemModel.mk
        (orderItemCoffeeModel.mk coffeeID types.StringNull types.StringNull
           types.StringNull types.Float64Null types.StringNull)
        (orderItemModel.Quantity config)
  end.

Fixpoint proposedItems (prior config : list orderItemModel.t)
  : list orderItemModel.t :=
  match config with
  | [] => []
  | c :: config' =>
      match prior with
      | p :: prior' => proposedItem (Some p) c :: proposedItems prior' config'
      | [] => proposedItem None c :: proposedItems [] config'
      end
  end.

(** Modelled from the spec: the comparison of the desired state with the
    last applied one, which the host makes before it calls the resource and
    which is not part of the sources (section 4.3: structural, over the
    user-specified fields only, whatever the server-computed fields and
    the time are).  The host proposes, for a resource in the state, the
    configured user-specified fields with the computed [id],
    [last_updated] and coffee fields of the prior state. *)
Definition proposed (prior : orderResourceModel.t)
    (desired : list orderItemModel.t) : orderResourceModel.t :=
  orderResourceModel.mk (orderResourceModel.ID prior)
    (proposedItems (orderResourceModel.Items prior) desired)
    (orderResourceModel.LastUpdated prior).

(** The planned item of a resource that is created or changed: every
    computed field unknown. *)
Definition plannedItem (config : orderItemModel.t) : orderItemModel.t :=
  orderItemModel.mk
    (orderItemCoffeeModel.mk
       (orderItemCoffeeModel.ID (orderItemModel.Coffee config))
       types.StringUnknown types.StringUnknown types.StringUnknown
       types.Float64Unknown types.StringUnknown)
    (orderItemModel.Quantity config).

(** The plan of the resource for the desired items, of which the
    user-specified fields count.  When the proposed state is the prior
    state, that is the plan; otherwise, and for a create, every computed
    attribute is unknown, and the plan modifier of [id] runs. *)
Definition plan (state : tfsdk.State) (desired : list orderItemModel.t)
  : orderResourceModel.t :=
  let planned :=
    orderResourceModel.mk (plannedID state) (map plannedItem desired)
      types.StringUnknown in
  match state with
  | Some prior =>
      if model_eqb (proposed prior desired) prior then proposed prior desired
      else planned
  | None => planned
  end.

(** Modelled from the spec: whether the host has the plan applied, a
    decision that is not part of the sources (section 4.3: no call when
    the desired state is the last applied one).  It does not when the plan
    is the prior state. *)
Definition changed (prior : orderResourceModel.t)
    (desired : list orderItemModel.t) : bool :=
  negb (model_eqb (plan (Some prior) desired) prior).

End schema.

(** ** The framework's calls of the handlers

    The response handed to [Create] has no resource in its state; the
    response handed to [Read], [Update] and [Delete] starts from the state
    of the request.  After a [Delete] without error diagnostics the
    resource is removed from the state. *)
Module fwserver.

Definition CreateResource (request : CreateRequest) : io Response :=
  Create request (mkResponse None []).

Definition ReadResource (request : ReadRequest) : io Response :=
  Read request (mkResponse (ReadState request) []).

Definition UpdateResource (req : UpdateRequest) : io Response :=
  Update req (mkResponse (UpdateState req) []).

Fixpoint after {A B : Type} (p : io A) (f : A -> B) : io B :=
  match p with
  | Ret a => Ret (f a)
  | Panic e => Panic e
  | Call c k => Call c (fun x => after (k x) f)
  | Now k => Now (fun t => after (k t) f)
  end.

Definition DeleteResource (request : DeleteRequest) : io Response :=
  after (Delete request (mkResponse (DeleteState request) []))
    (fun response =>
       if diag.HasError (Diagnostics response) then response
       else with_State response None).

End fwserver.
Import fwserver.

(** The user-specified fields of a model: per item, the coffee's identifier
    and the quantity. *)
Definition desired_of (m : orderResourceModel.t)
  : list (types.Int64 * types.Int64) :=
  map (fun item =>
         (orderItemCoffeeModel.ID (orderItemModel.Coffee item),
          orderItemModel.Quantity item))
      (orderResourceModel.Items m).

(** The same of a list of items. *)
Definition user_fields (items : list orderItemModel.t)
  : list (types.Int64 * types.Int64) :=
  map (fun item =>
         (orderItemCoffeeModel.ID (orderItemModel.Coffee item),
          orderItemModel.Quantity item))
      items.

(** ** Environments *)

(** A client that gives the same answers whatever it is asked, and a clock
    that has stopped. *)
Definition canned (created got updated : result Order.t)
    (deleted : option error) (now : string) : World unit :=
  mkWorld
    (fun X (c : call X) (w : unit) =>
       match c in call X return X * unit with
       | CreateOrder _ => (created, w)
       | GetOrder _ => (got, w)
       | UpdateOrder _ _ => (updated, w)
       | DeleteOrder _ => (deleted, w)
       end)
    (fun w => (now, w)).

(** Modelled from the spec: the remote behind the client, which is not part
    of the sources at hand, after section 4.1 of the specification.
    [Create] makes one new object under a fresh identity key; [Read] fails
    with [NotFoundError] for an object that no longer exists; [Update]
    replaces the items in full; [Delete] fails with [RemoteError] when the
    remote rejects the deletion and succeeds, with no error, when the
    object is already absent. *)
Module Remote.

Record t : Type := mk {
  orders : list Order.t;
  nextID : int;
  (** identity keys whose deletion the remote rejects *)
  held : list string
}.

(** Modelled from the spec: the identity key of an object at the host
    boundary is the decimal text of its number (section 6). *)
Definition has_key (orderID : string) (o : Order.t) : bool :=
  String.eqb (Itoa (Order.ID o)) orderID.

(** Modelled from the spec: the object the remote holds under a key. *)
Definition lookup (r : t) (orderID : string) : option Order.t :=
  find (has_key orderID) (orders r).

(** Modelled from the spec: the errors of sections 4.1 and 7. *)
Definition notFound : error := mkError NotFoundError "order not found".
Definition rejected : error :=
  mkError (RemoteError 409 "order is referenced") "status: 409".

(** Modelled from the spec: [Create] makes exactly one object, under a
    fresh identity key. *)
Definition createOrder (items : list OrderItem.t) (r : t)
  : result Order.t * t :=
  let o := Order.mk (nextID r) items in
  (Ok o, mk (orders r ++ [o]) (nextID r + 1) (held r)).

(** Modelled from the spec: [Read] fails with [NotFoundError] when the
    object no longer exists. *)
Definition getOrder (orderID : string) (r : t) : result Order.t * t :=
  match lookup r orderID with
  | Some o => (Ok o, r)
  | None => (Err notFound, r)
  end.

(** Modelled from the spec: [Update] replaces the items in full. *)
Definition updateOrder (orderID : string) (items : list OrderItem.t)
    (r : t) : result Order.t * t :=
  match lookup r orderID with
  | Some o =>
      let o' := Order.mk (Order.ID o) items in
      (Ok o',
       mk (map (fun x => if has_key orderID x then o' else x) (orders r))
          (nextID r) (held r))
  | None => (Err notFound, r)
  end.

(** Modelled from the spec: [Delete] fails with [RemoteError] if the remote
    rejects the deletion, and succeeds, with no error, if the object is
    already absent. *)
Definition deleteOrder (orderID : string) (r : t) : option error * t :=
  match lookup r orderID with
  | None => (None, r)
  | Some _ =>
      if existsb (String.eqb orderID) (held r) then (Some rejected, r)
      else
        (None,
         mk (filter (fun x => negb (has_key orderID x)) (orders r))
            (nextID r) (held r))
  end.

(** Modelled from the spec: the client in front of that remote. *)
Definition world (now : string) : World t :=
  mkWorld
    (fun X (c : call X) =>
       match c in call X return t -> X * t with
       | CreateOrder items => createOrder items
       | GetOrder orderID => getOrder orderID
       | UpdateOrder orderID items => updateOrder orderID items
       | DeleteOrder orderID => deleteOrder orderID
       end)
    (fun r => (now, r)).

End Remote.

(** ** Sample data: the order of one spiced latte, twice *)

Definition latte : Coffee.t :=
  Coffee.mk 1 "Packer Spiced Latte"
    "Packed with goodness to spice up your images" "" 0x4075E00000000000
    "/packer.png" [].

(** The planned item [{coffee: {id: 1}, quantity: q}]; the computed fields
    of the coffee are unknown in a plan. *)
Definition planned_item (coffeeID quantity : int64) : orderItemModel.t :=
  orderItemModel.mk
    (orderItemCoffeeModel.mk (types.Int64Value coffeeID)
       types.StringUnknown types.StringUnknown types.StringUnknown
       types.Float64Unknown types.StringUnknown)
    (types.Int64Value quantity).

Definition order42 : Order.t := Order.mk 42 [OrderItem.mk latte 2].

Definition stamp : string := "Sunday, 01-Nov-26 10:00:00 UTC".

(** The state of order 42 as a create or a refresh leaves it. *)
Definition state42 : orderResourceModel.t :=
  orderResourceModel.mk (types.StringValue "42")
    [fromOrderItem (OrderItem.mk latte 2)] (types.StringValue stamp).

Definition unprocessable : error :=
  mkError (RemoteError 422 "invalid order") "status: 422, body: invalid order".

(** ** Operations, scenarios and the specification's mappings *)

(** The four operations on the resource, as the framework starts them, and
    the state each one starts from. *)
Inductive operation : Type :=
| OpCreate (request : CreateRequest)
| OpRead (request : ReadRequest)
| OpUpdate (req : UpdateRequest)
| OpDelete (request : DeleteRequest).

Definition program (op : operation) : io Response :=
  match op with
  | OpCreate request => CreateResource request
  | OpRead request => ReadResource request
  | OpUpdate req => UpdateResource req
  | OpDelete request => DeleteResource request
  end.

Definition prior (op : operation) : tfsdk.State :=
  match op with
  | OpCreate _ => None
  | OpRead request => ReadState request
  | OpUpdate req => UpdateState req
  | OpDelete request => DeleteState request
  end.

(** An update of order 42 to three lattes, against a client that rejects
    every request with status 422. *)
Definition update42 : UpdateRequest :=
  mkUpdateRequest (Some (schema.plan (Some state42) [planned_item 1 3]))
    (Some state42).

Definition rejecting : World unit :=
  canned (Err unprocessable) (Err unprocessable) (Err unprocessable)
    (Some unprocessable) stamp.

(** What [Read] reports when the client fails. *)
Definition read_error (stateID : string) (err : error) : diag.Diagnostic :=
  diag.NewErrorDiagnostic "Error Reading HashiCups Order"
    ("Could not read HashiCups order ID " ++ stateID ++ ": " ++ Error err).

(** Whether an event is a call of [UpdateOrder]. *)
Definition is_UpdateOrder (e : event) : bool :=
  match e with
  | Event c _ =>
      match c with
      | UpdateOrder _ _ => true
      | _ => false
      end
  end.

(** Order 42 as the remote holds it. *)
Definition remote42 : Remote.t := Remote.mk [order42] 43 [].

(** The request item the specification asks for: the coffee's identity key
    and the quantity of the planned item, and nothing else. *)
Definition wire_of (item : orderItemModel.t) : OrderItem.t :=
  OrderItem.mk
    (Coffee.mk
       (types.ValueInt64
          (orderItemCoffeeModel.ID (orderItemModel.Coffee item)))
       "" "" "" 0 "" [])
    (types.ValueInt64 (orderItemModel.Quantity item)).

(** The state item the specification asks for: the coffee as the server
    filled it in, and the quantity of the answer. *)
Definition model_of (orderItem : OrderItem.t) : orderItemModel.t :=
  orderItemModel.mk
    (orderItemCoffeeModel.mk
       (types.Int64Value (Coffee.ID (OrderItem.Coffee orderItem)))
       (types.StringValue (Coffee.Name (OrderItem.Coffee orderItem)))
       (types.StringValue (Coffee.Teaser (OrderItem.Coffee orderItem)))
       (types.StringValue (Coffee.Description (OrderItem.Coffee orderItem)))
       (types.Float64Value (Coffee.Price (OrderItem.Coffee orderItem)))
       (types.StringValue (Coffee.Image (OrderItem.Coffee orderItem))))
    (types.Int64Value (OrderItem.Quantity orderItem)).

(** The integers of a planned item, and of an item of an answer, are 64-bit
    values. *)
Definition planned_in_range (item : orderItemModel.t) : Prop :=
  int64_range
    (types.ValueInt64 (orderItemCoffeeModel.ID (orderItemModel.Coffee item)))
  /\ int64_range (types.ValueInt64 (orderItemModel.Quantity item)).

Definition answered_in_range (orderItem : OrderItem.t) : Prop :=
  int64_range (Coffee.ID (OrderItem.Coffee orderItem))
  /\ int64_range (OrderItem.Quantity orderItem).

(** The scenario of the specification: one spiced latte twice, answered as
    order 42. *)
Definition create42 : CreateRequest :=
  mkCreateRequest (Some (schema.plan None [planned_item 1 2])).

Definition answering42 : World unit :=
  canned (Ok order42) (Ok order42) (Ok order42) None stamp.

(** An answer with two items to a plan of one. *)
Definition order43 : Order.t :=
  Order.mk 43 [OrderItem.mk latte 2; OrderItem.mk latte 1].

Definition answering43 : World unit :=
  canned (Ok order43) (Ok order43) (Ok order43) None stamp.

(** What the host does with a resource in the state: refresh it, or apply
    desired items, planned through the schema.  An apply whose plan is the
    prior state is not handed to the resource. *)
Inductive action : Type :=
| Refresh
| Apply (desired : list orderItemModel.t).

Definition act (a : action) (state : orderResourceModel.t) : io Response :=
  match a with
  | Refresh => ReadResource (mkReadRequest (Some state))
  | Apply desired =>
      if schema.changed state desired then
        UpdateResource
          (mkUpdateRequest (Some (schema.plan (Some state) desired))
             (Some state))
      else Ret (mkResponse (Some state) [])
  end.

(** A session runs actions one after the other, each on the state the one
    before left.  It ends early, with no resource, when an action panics or
    leaves no resource in the state. *)
Fixpoint session {W : Type} (env : World W) (actions : list action)
    (state : orderResourceModel.t) (w : W) : tfsdk.State * W :=
  match actions with
  | [] => (Some state, w)
  | a :: rest =>
      match run env (act a state) w with
      | (Returned response, w1, _) =>
          match State response with
          | Some state1 => session env rest state1 w1
          | None => (None, w1)
          end
      | (Panicked _, w1, _) => (None, w1)
      end
  end.

(** ** The rest of the order resource: type name, client, schema *)

(** What an event tells about the handler that made it: the error the client
    answered with, and the identity key the call addressed. *)
Definition error_of (e : event) : option error :=
  match e with
  | Event c x =>
      match c in call X return X -> option error with
      | CreateOrder _ | GetOrder _ | UpdateOrder _ _ =>
          fun r => match r with Ok _ => None | Err err => Some err end
      | DeleteOrder _ => fun r => r
      end x
  end.

Definition key_of (e : event) : option string :=
  match e with
  | Event c _ =>
      match c with
      | CreateOrder _ => None
      | GetOrder orderID => Some orderID
      | UpdateOrder orderID _ => Some orderID
      | DeleteOrder orderID => Some orderID
      end
  end.

(** The identity key an operation is about: none for a create, the key of
    the state for a refresh and a destroy, the key of the plan for an
    update. *)
Definition addressed (op : operation) : option string :=
  let key m := types.ValueString (orderResourceModel.ID m) in
  match op with
  | OpCreate _ => None
  | OpRead request => option_map key (ReadState request)
  | OpUpdate req => option_map key (UpdatePlan req)
  | OpDelete request => option_map key (DeleteState request)
  end.

(** A handler on the response it is given, and the object it decodes
    first. *)
Definition handler (op : operation) (response : Response) : io Response :=
  match op with
  | OpCreate request => Create request response
  | OpRead request => Read request response
  | OpUpdate req => Update req response
  | OpDelete request => Delete request response
  end.

Definition decoded (op : operation) : option orderResourceModel.t :=
  match op with
  | OpCreate request => CreatePlan request
  | OpRead request => ReadState request
  | OpUpdate req => UpdatePlan req
  | OpDelete request => DeleteState request
  end.

(** A planned item whose two user-specified integers are known 64-bit
    values. *)
Definition known_in_range (item : orderItemModel.t) : Prop :=
  exists coffeeID quantity,
    orderItemCoffeeModel.ID (orderItemModel.Coffee item)
    = types.Int64Value coffeeID
    /\ orderItemModel.Quantity item = types.Int64Value quantity
    /\ int64_range coffeeID /\ int64_range quantity.

(** A dynamic value handed over as [ProviderData]: a [*Client] (which may
    be the nil pointer) or a value of another type.  [ProviderData] itself
    is such a value or the nil interface. *)
Inductive any (Client : Type) : Type :=
| ClientPointer (c : option Client)
| OtherValue.
Arguments ClientPointer {Client} c.
Arguments OtherValue {Client}.

Module orderResource.

Record t (Client : Type) : Type := mk {
  client : option Client
}.

(** [NewOrderResource]: a resource without client. *)
Definition NewOrderResource (Client : Type) : t Client := mk None.

(** [Metadata]: the type name of the resource. *)
Definition Metadata (ProviderTypeName : string) : string :=
  ProviderTypeName ++ "_order".

(** [Configure]: nothing without provider data; otherwise the client is the
    provider data, asserted to be a [*Client].  The assertion panics on a
    value of another type, which is [None] here. *)
Definition Configure {Client : Type} (o : t Client)
    (ProviderData : option (any Client)) : option (t Client) :=
  match ProviderData with
  | None => Some o
  | Some (ClientPointer c) => Some (mk c)
  | Some OtherValue => None
  end.

(** [Configure] for one request after the other, until one panics. *)
Fixpoint configure_all {Client : Type} (o : t Client)
    (requests : list (option (any Client))) : option (t Client) :=
  match requests with
  | [] => Some o
  | ProviderData :: rest =>
      match Configure o ProviderData with
      | Some o' => configure_all o' rest
      | None => None
      end
  end.

End orderResource.

(** The client pointer of the last request that has provider data. *)
Definition last_client {Client : Type} (start : option Client)
    (requests : list (option (any Client))) : option Client :=
  fold_left
    (fun acc ProviderData =>
       match ProviderData with
       | Some (ClientPointer c) => c
       | _ => acc
       end)
    requests start.

Definition is_other {Client : Type} (ProviderData : option (any Client))
  : bool :=
  match ProviderData with
  | Some OtherValue => true
  | _ => false
  end.

(** ** The coffees data source *)

Module coffeesIngredientsModel.
Record t : Type := mk { ID : types.Int64 }.
End coffeesIngredientsModel.

Module coffeesModel.
Record t : Type := mk {
  ID : types.Int64;
  Name : types.String;
  Teaser : types.String;
  Description : types.String;
  Price : types.Float64;
  Image : types.String;
  Ingredients : list coffeesIngredientsModel.t
}.
End coffeesModel.

Module coffeesDataSourceModel.
Record t : Type := mk {
  ID : types.String;
  Coffees : list coffeesModel.t
}.

(** The zero value, what [var state coffeesDataSourceModel] holds. *)
Definition zero : t := mk types.StringNull [].
End coffeesDataSourceModel.

Module datasource.

Record ReadResponse : Type := mkReadResponse {
  State : option coffeesDataSourceModel.t;
  Diagnostics : diag.Diagnostics
}.

End datasource.

Module coffeesDataSource.

Record t (Client : Type) : Type := mk {
  client : option Client
}.

(** [NewCoffeesDataSource]: a data source without client. *)
Definition NewCoffeesDataSource (Client : Type) : t Client := mk None.

(** [Metadata]: the type name of the data source. *)
Definition Metadata (ProviderTypeName : string) : string :=
  ProviderTypeName ++ "_coffees".

(** [Configure], as for the order resource. *)
Definition Configure {Client : Type} (c : t Client)
    (ProviderData : option (any Client)) : option (t Client) :=
  match ProviderData with
  | None => Some c
  | Some (ClientPointer p) => Some (mk p)
  | Some OtherValue => None
  end.

(** The inner loop of [Read]: one model ingredient appended per ingredient
    of the coffee. *)
Fixpoint appendIngredients (ingredients : list coffeesIngredientsModel.t)
    (wire : list Ingredient.t) : list coffeesIngredientsModel.t :=
  match wire with
  | [] => ingredients
  | ingredient :: rest =>
      appendIngredients
        (ingredients
           ++ [coffeesIngredientsModel.mk
                 (types.Int64Value (int64_of_int (Ingredient.ID ingredient)))])
        rest
  end.

(** The body of the outer loop: the model of one coffee. *)
Definition coffeeState (coffee : Coffee.t) : coffeesModel.t :=
  coffeesModel.mk
    (types.Int64Value (int64_of_int (Coffee.ID coffee)))
    (types.StringValue (Coffee.Name coffee))
    (types.StringValue (Coffee.Teaser coffee))
    (types.StringValue (Coffee.Description coffee))
    (types.Float64Value (Coffee.Price coffee))
    (types.StringValue (Coffee.Image coffee))
    (appendIngredients [] (Coffee.Ingredient coffee)).

(** The outer loop of [Read]. *)
Fixpoint appendCoffees (stateCoffees : list coffeesModel.t)
    (coffees : list Coffee.t) : list coffeesModel.t :=
  match coffees with
  | [] => stateCoffees
  | coffee :: rest => appendCoffees (stateCoffees ++ [coffeeState coffee]) rest
  end.

(** [Read], over a world [W] whose [GetCoffees] is the client's call. *)
Definition Read {W : Type} (GetCoffees : W -> result (list Coffee.t) * W)
    (resp : datasource.ReadResponse) (w : W)
  : datasource.ReadResponse * W :=
  let state := coffeesDataSourceModel.zero in
  let '(r, w1) := GetCoffees w in
  match r with
  | Err err =>
      (datasource.mkReadResponse (datasource.State resp)
         (diag.AddError (datasource.Diagnostics resp)
            "Unable to Read HashiCups Coffees" (Error err)),
       w1)
  | Ok coffees =>
      let state :=
        coffeesDataSourceModel.mk (types.StringValue "placeholder")
          (appendCoffees (coffeesDataSourceModel.Coffees state) coffees) in
      (datasource.mkReadResponse (Some state)
         (diag.Append (datasource.Diagnostics resp) []),
       w1)
  end.

End coffeesDataSource.

(** The model of a coffee the data source is meant to hold: the fields of
    the wire coffee, and one ingredient identifier per ingredient. *)
Definition coffee_model_of (coffee : Coffee.t) : coffeesModel.t :=
  coffeesModel.mk
    (types.Int64Value (Coffee.ID coffee))
    (types.StringValue (Coffee.Name coffee))
    (types.StringValue (Coffee.Teaser coffee))
    (types.StringValue (Coffee.Description coffee))
    (types.Float64Value (Coffee.Price coffee))
    (types.StringValue (Coffee.Image coffee))
    (map (fun ingredient =>
            coffeesIngredientsModel.mk
              (types.Int64Value (Ingredient.ID ingredient)))
         (Coffee.Ingredient coffee)).

Definition coffee_in_range (coffee : Coffee.t) : Prop :=
  int64_range (Coffee.ID coffee)
  /\ Forall (fun ingredient => int64_range (Ingredient.ID ingredient))
       (Coffee.Ingredient coffee).

(** A catalogue of two coffees and a client that serves it. *)
Definition vaulatte : Coffee.t :=
  Coffee.mk 2 "Vaulatte" "Nothing gives you a safe and secure feeling like a Vaulatte"
    "" 0x4069000000000000 "/vault.png" [Ingredient.mk 1; Ingredient.mk 2].

Definition catalogue : list Coffee.t := [latte; vaulatte].

(** ** Further scenarios and measures *)

(** A client whose update succeeds and whose read fails. *)
Definition read_back_fails : World unit :=
  canned (Ok order42) (Err unprocessable) (Ok order42) None stamp.

(** A response that already holds an error. *)
Definition failed_before : Response :=
  mkResponse (Some state42)
    [diag.NewErrorDiagnostic "Provider not configured" "no client"].

(** The user-specified integers of a wire item. *)
Definition wire_pair (orderItem : OrderItem.t) : int * int :=
  (Coffee.ID (OrderItem.Coffee orderItem), OrderItem.Quantity orderItem).

(** The last character of a text. *)
Fixpoint last_ascii (s : string) : option ascii :=
  match s with
  | EmptyString => None
  | String c EmptyString => Some c
  | String _ rest => last_ascii rest
  end.

(** The user-specified fields of a configured item, as known values; the
    request item they are to be sent as; and their being 64-bit values. *)
Definition known_fields (p : int64 * int64) : types.Int64 * types.Int64 :=
  (types.Int64Value (fst p), types.Int64Value (snd p)).

Definition sent_item (p : int64 * int64) : OrderItem.t :=
  OrderItem.mk (Coffee.mk (fst p) "" "" "" 0 "" []) (snd p).

Definition pair_in_range (p : int64 * int64) : Prop :=
  int64_range (fst p) /\ int64_range (snd p).

(** A client that answers every order with no latte at all. *)
Definition order_of_none : Order.t := Order.mk 42 [OrderItem.mk latte 0].

Definition answering_none : World unit :=
  canned (Ok order_of_none) (Ok order_of_none) (Ok order_of_none) None stamp.


(** The kind of a call, and the calls of each operation, in order. *)
Inductive call_kind : Type :=
| KCreateOrder
| KGetOrder
| KUpdateOrder
| KDeleteOrder.

Definition kind_of (e : event) : call_kind :=
  match e with
  | Event c _ =>
      match c with
      | CreateOrder _ => KCreateOrder
      | GetOrder _ => KGetOrder
      | UpdateOrder _ _ => KUpdateOrder
      | DeleteOrder _ => KDeleteOrder
      end
  end.

Definition script (op : operation) : list call_kind :=
  match op with
  | OpCreate _ => [KCreateOrder]
  | OpRead _ => [KGetOrder]
  | OpUpdate _ => [KUpdateOrder; KGetOrder]
  | OpDelete _ => [KDeleteOrder]
  end.

(** * Properties *)

(** ** Scalars *)

Lemma wrap64_in_range (z : Z) : int64_range z -> wrap64 z = z.
Proof.
  unfold int64_range, wrap64. intros H.
  rewrite Z.mod_small; lia.
Qed.



(** ** Diagnostics *)

Lemma HasError_app (a b : diag.Diagnostics) :
  diag.HasError (a ++ b) = diag.HasError a || diag.HasError b.
Proof. apply existsb_app. Qed.

Lemma Contains_error_HasError (diags : diag.Diagnostics) (d : diag.Diagnostic) :
  diag.is_error d = true -> diag.Contains diags d = true ->
  diag.HasError diags = true.
Proof.
  unfold diag.Contains, diag.HasError. intros Hd Hc.
  apply existsb_exists in Hc as [x [Hin Heq]].
  apply existsb_exists. exists x. split; [exact Hin|].
  unfold diag.Equal in Heq.
  apply andb_true_iff in Heq as [Heq _].
  apply andb_true_iff in Heq as [Heq _].
  unfold diag.is_error in *.
  destruct (diag.severity d), (diag.severity x); simpl in *; congruence.
Qed.

Lemma HasError_AddError (diags : diag.Diagnostics) (summary detail : string) :
  diag.HasError (diag.AddError diags summary detail) = true.
Proof.
  unfold diag.AddError; simpl.
  destruct (diag.Contains diags _) eqn:Hc.
  - eapply Contains_error_HasError; [|exact Hc]. reflexivity.
  - rewrite HasError_app. simpl. apply orb_true_r.
Qed.

(** ** The loops *)

Lemma toOrderItems_map (items : list OrderItem.t)
    (planItems : list orderItemModel.t) :
  toOrderItems items planItems = items ++ map toOrderItem planItems.
Proof.
  revert items. induction planItems as [|item rest IH]; intros items; simpl.
  - now rewrite app_nil_r.
  - rewrite IH, <- app_assoc. reflexivity.
Qed.

Lemma appendItems_map (stateItems : list orderItemModel.t)
    (orderItems : list OrderItem.t) :
  appendItems stateItems orderItems
  = stateItems ++ map fromOrderItem orderItems.
Proof.
  revert stateItems.
  induction orderItems as [|item rest IH]; intros stateItems; simpl.
  - now rewrite app_nil_r.
  - rewrite IH, <- app_assoc. reflexivity.
Qed.

Lemma slice_set_in_range {A : Type} (done todo : list A) (y x : A) :
  slice_set (done ++ y :: todo) (List.length done) x
  = Some (done ++ x :: todo).
Proof.
  induction done as [|d done IH]; simpl.
  - reflexivity.
  - now rewrite IH.
Qed.

Lemma slice_set_out_of_range {A : Type} (s : list A) (i : nat) (x : A) :
  (List.length s <= i)%nat -> slice_set s i x = None.
Proof.
  revert i. induction s as [|y s IH]; intros i H; simpl in *.
  - reflexivity.
  - destruct i as [|j]; [lia|]. rewrite IH by lia. reflexivity.
Qed.

(** With [done] already overwritten, the loop overwrites the next items of
    the slice one for one, and panics at the slice's length when the answer
    has more items than are left. *)
Lemma overwriteItems_spec (orderItems : list OrderItem.t) :
  forall done todo : list orderItemModel.t,
    overwriteItems (done ++ todo) (List.length done) orderItems
    = if (List.length orderItems <=? List.length todo)%nat
      then inr (done ++ map fromOrderItem orderItems
                  ++ skipn (List.length orderItems) todo)
      else inl (IndexOutOfRange (List.length (done ++ todo))
                  (List.length (done ++ todo))).
Proof.
  induction orderItems as [|orderItem rest IH]; intros done todo.
  - reflexivity.
  - cbn [overwriteItems]. destruct todo as [|y todo].
    + rewrite slice_set_out_of_range by (rewrite app_nil_r; lia).
      rewrite app_nil_r. reflexivity.
    + rewrite slice_set_in_range.
      replace (done ++ fromOrderItem orderItem :: todo)
        with ((done ++ [fromOrderItem orderItem]) ++ todo)
        by (rewrite <- app_assoc; reflexivity).
      replace (S (List.length done))
        with (List.length (done ++ [fromOrderItem orderItem]))
        by (rewrite length_app; simpl; lia).
      rewrite IH. cbn [List.length map skipn].
      change (S (List.length rest) <=? S (List.length todo))%nat
        with (List.length rest <=? List.length todo)%nat.
      destruct (List.length rest <=? List.length todo)%nat.
      * rewrite <- app_assoc. reflexivity.
      * rewrite !length_app. cbn [List.length].
        replace (List.length done + 1 + List.length todo)%nat
          with (List.length done + S (List.length todo))%nat by lia.
        reflexivity.
Qed.

Lemma overwriteItems_from_start (planItems : list orderItemModel.t)
    (orderItems : list OrderItem.t) :
  overwriteItems planItems 0 orderItems
  = if (List.length orderItems <=? List.length planItems)%nat
    then inr (map fromOrderItem orderItems
                ++ skipn (List.length orderItems) planItems)
    else inl (IndexOutOfRange (List.length planItems)
                (List.length planItems)).
Proof. exact (overwriteItems_spec orderItems [] planItems). Qed.

(** ** Running the handlers *)

Lemma run_Call {W A X : Type} (env : World W) (c : call X) (k : X -> io A)
    (w : W) :
  run env (Call c k) w
  = let r := run env (k (fst (client env c w))) (snd (client env c w)) in
    (outcome_of r, world_of r, Event c (fst (client env c w)) :: trace_of r).
Proof.
  cbn [run]. destruct (client env c w) as [x w1]. cbn [fst snd].
  destruct (run env (k x) w1) as [[o w2] tr]. reflexivity.
Qed.

Lemma run_Now {W A : Type} (env : World W) (k : string -> io A) (w : W) :
  run env (Now k) w = run env (k (fst (clock env w))) (snd (clock env w)).
Proof.
  cbn [run]. destruct (clock env w) as [t w1]. reflexivity.
Qed.

Lemma run_after {W A B : Type} (env : World W) (p : io A) (f : A -> B)
    (w : W) :
  run env (after p f) w
  = (match outcome_of (run env p w) with
     | Returned a => Returned (f a)
     | Panicked e => Panicked e
     end,
     world_of (run env p w), trace_of (run env p w)).
Proof.
  revert w. induction p as [a|e|X c k IH|k IH]; intros w.
  - reflexivity.
  - reflexivity.
  - cbn [after]. rewrite !run_Call. cbn zeta. rewrite IH. reflexivity.
  - cbn [after]. rewrite !run_Now. apply IH.
Qed.

(** The runs of [Read], [Update] and [Delete] in full. *)

Lemma Read_run (state : orderResourceModel.t) (W : Type) (env : World W)
    (w : W) :
  let stateID := types.ValueString (orderResourceModel.ID state) in
  let answer := fst (client env (GetOrder stateID) w) in
  run env (ReadResource (mkReadRequest (Some state))) w
  = (Returned
       match answer with
       | Ok order =>
           mkResponse
             (Some (orderResourceModel.mk (orderResourceModel.ID state)
                      (map fromOrderItem (Order.Items order))
                      (orderResourceModel.LastUpdated state)))
             []
       | Err err => mkResponse (Some state) [read_error stateID err]
       end,
     snd (client env (GetOrder stateID) w),
     [Event (GetOrder stateID) answer]).
Proof.
  cbv zeta. unfold ReadResource, Read. cbn -[run appendItems].
  rewrite run_Call. cbv zeta.
  destruct (fst (client env _ w)) as [order|err].
  - rewrite appendItems_map. reflexivity.
  - reflexivity.
Qed.

Lemma Update_run (plan : orderResourceModel.t) (state : tfsdk.State)
    (W : Type) (env : World W) (w : W) :
  let planID := types.ValueString (orderResourceModel.ID plan) in
  let sent := map toOrderItem (orderResourceModel.Items plan) in
  let answer1 := fst (client env (UpdateOrder planID sent) w) in
  let w1 := snd (client env (UpdateOrder planID sent) w) in
  let answer2 := fst (client env (GetOrder planID) w1) in
  let w2 := snd (client env (GetOrder planID) w1) in
  run env (UpdateResource (mkUpdateRequest (Some plan) state)) w
  = match answer1 with
    | Err err =>
        (Returned
           (mkResponse state
              [diag.NewErrorDiagnostic "Error Updating HashiCups Order"
                 ("Could not update order, unexpected error: " ++ Error err)]),
         w1, [Event (UpdateOrder planID sent) answer1])
    | Ok _ =>
        match answer2 with
        | Err err =>
            (Returned (mkResponse state [read_error planID err]),
             w2,
             [Event (UpdateOrder planID sent) answer1;
              Event (GetOrder planID) answer2])
        | Ok order =>
            (Returned
               (mkResponse
                  (Some (orderResourceModel.mk (orderResourceModel.ID plan)
                           (map fromOrderItem (Order.Items order))
                           (types.StringValue (fst (clock env w2)))))
                  []),
             snd (clock env w2),
             [Event (UpdateOrder planID sent) answer1;
              Event (GetOrder planID) answer2])
        end
    end.
Proof.
  cbv zeta. unfold UpdateResource, Update.
  cbn -[run toOrderItems appendItems].
  rewrite toOrderItems_map. cbn [app].
  rewrite run_Call. cbv zeta.
  destruct (fst (client env _ w)) as [updated|err].
  - rewrite run_Call. cbv zeta.
    destruct (fst (client env (GetOrder _) _)) as [order|err].
    + rewrite run_Now. rewrite appendItems_map. reflexivity.
    + reflexivity.
  - reflexivity.
Qed.

Lemma Delete_run (state : orderResourceModel.t) (W : Type) (env : World W)
    (w : W) :
  let stateID := types.ValueString (orderResourceModel.ID state) in
  let answer := fst (client env (DeleteOrder stateID) w) in
  run env (DeleteResource (mkDeleteRequest (Some state))) w
  = (Returned
       match answer with
       | None => mkResponse None []
       | Some err =>
           mkResponse (Some state)
             [diag.NewErrorDiagnostic "Error Deleting HashiCups Order"
                ("Could not delete order, unexpected error: " ++ Error err)]
       end,
     snd (client env (DeleteOrder stateID) w),
     [Event (DeleteOrder stateID) answer]).
Proof.
  cbv zeta. unfold DeleteResource. rewrite run_after.
  unfold Delete. cbn -[run]. rewrite run_Call. cbv zeta.
  destruct (fst (client env _ w)) as [err|]; reflexivity.
Qed.

(** C1.  Whatever the operation and whatever the client, when a call on the
    client fails the operation returns with the state it started from (no
    resource, for a create) and with an error diagnostic. *)
Theorem failed_call_retains_state (op : operation) (W : Type)
    (env : World W) (w : W) :
  existsb failed (trace_of (run env (program op) w)) = true ->
  exists response,
    outcome_of (run env (program op) w) = Returned response
    /\ State response = prior op
    /\ diag.HasError (Diagnostics response) = true.
Proof.
  destruct op as [[plan]|[state]|[plan state]|[state]]; cbn [program prior].
  - (* Create *)
    unfold CreateResource, Create.
    destruct plan as [plan|]; cbn -[run]; [|discriminate].
    rewrite run_Call. cbv zeta.
    destruct (fst (client env _ w)) as [order|err] eqn:E.
    + destruct (overwriteItems _ 0 _) as [p|items].
      * cbn. discriminate.
      * rewrite run_Now. cbn. discriminate.
    + cbn. intros _. eexists. split; [reflexivity|]. split; reflexivity.
  - (* Read *)
    unfold ReadResource, Read.
    destruct state as [state|]; cbn -[run]; [|discriminate].
    rewrite run_Call. cbv zeta.
    destruct (fst (client env _ w)) as [order|err] eqn:E.
    + cbn. discriminate.
    + cbn. intros _. eexists. split; [reflexivity|]. split; reflexivity.
  - (* Update *)
    unfold UpdateResource, Update.
    destruct plan as [plan|]; cbn -[run]; [|discriminate].
    rewrite run_Call. cbv zeta.
    destruct (fst (client env _ w)) as [updated|err] eqn:E.
    + rewrite run_Call. cbv zeta.
      destruct (fst (client env (GetOrder _) _)) as [order|err] eqn:E2.
      * rewrite run_Now. cbn. discriminate.
      * cbn. intros _. eexists. split; [reflexivity|]. split; reflexivity.
    + cbn. intros _. eexists. split; [reflexivity|]. split; reflexivity.
  - (* Delete *)
    unfold DeleteResource. rewrite run_after. unfold Delete.
    destruct state as [state|]; cbn -[run]; [|discriminate].
    rewrite run_Call. cbv zeta.
    destruct (fst (client env _ w)) as [err|] eqn:E.
    + cbn. intros _. eexists. split; [reflexivity|]. split; reflexivity.
    + cbn. discriminate.
Qed.

Lemma failed_call_retains_state_witness :
  existsb failed (trace_of (run rejecting (program (OpUpdate update42)) tt))
  = true
  /\ exists response,
       outcome_of (run rejecting (program (OpUpdate update42)) tt)
       = Returned response
       /\ State response = Some state42
       /\ diag.HasError (Diagnostics response) = true.
Proof.
  split; [reflexivity|].
  apply (failed_call_retains_state (OpUpdate update42) rejecting tt).
  reflexivity.
Defined.

(** ** Refresh *)

(** C2, as the code has it.  A refresh whose read fails, with
    [NotFoundError] or any other error, leaves the resource in the state
    unchanged and reports the error; the read is its only call. *)
Theorem Read_error_keeps_state (state : orderResourceModel.t) (W : Type)
    (env : World W) (w w' : W) (err : error) :
  client env (GetOrder (types.ValueString (orderResourceModel.ID state))) w
  = (Err err, w') ->
  run env (ReadResource (mkReadRequest (Some state))) w
  = (Returned
       (mkResponse (Some state)
          [read_error (types.ValueString (orderResourceModel.ID state)) err]),
     w',
     [Event (GetOrder (types.ValueString (orderResourceModel.ID state)))
        (Err err)]).
Proof.
  intros E. unfold ReadResource, Read. cbn -[run].
  rewrite run_Call, E. reflexivity.
Qed.

Lemma Read_error_keeps_state_witness :
  client (Remote.world stamp) (GetOrder "42") (Remote.mk [] 43 [])
  = (Err Remote.notFound, Remote.mk [] 43 [])
  /\ run (Remote.world stamp) (ReadResource (mkReadRequest (Some state42)))
       (Remote.mk [] 43 [])
     = (Returned (mkResponse (Some state42)
                    [read_error "42" Remote.notFound]),
        Remote.mk [] 43 [],
        [Event (GetOrder "42") (Err Remote.notFound)]).
Proof.
  split; [reflexivity|].
  apply (Read_error_keeps_state state42 (Remote.world stamp)
           (Remote.mk [] 43 []) (err := Remote.notFound)).
  reflexivity.
Defined.

(** C2 fails as stated: order 42 is gone from the remote, the read fails
    with [NotFoundError], and the refresh still leaves the resource in the
    state. *)
Lemma Read_NotFound_stays_present :
  kind Remote.notFound = NotFoundError
  /\ exists response,
       outcome_of (run (Remote.world stamp)
                     (ReadResource (mkReadRequest (Some state42)))
                     (Remote.mk [] 43 []))
       = Returned response
       /\ State response = Some state42
       /\ State response <> None.
Proof.
  split; [reflexivity|].
  eexists. split; [reflexivity|]. split; [reflexivity|]. discriminate.
Qed.

(** ** Update *)

(** The calls of an update: [UpdateOrder] with the identity key and all the
    planned items, then, when it succeeded, [GetOrder] with the same key. *)
Lemma Update_trace (plan : orderResourceModel.t) (state : tfsdk.State)
    (W : Type) (env : World W) (w : W) :
  let planID := types.ValueString (orderResourceModel.ID plan) in
  let sent := map toOrderItem (orderResourceModel.Items plan) in
  exists answer rest,
    trace_of (run env (UpdateResource (mkUpdateRequest (Some plan) state)) w)
    = Event (UpdateOrder planID sent) answer :: rest
    /\ (rest = [] \/ exists got, rest = [Event (GetOrder planID) got]).
Proof.
  cbv zeta. unfold UpdateResource, Update. cbn -[run toOrderItems].
  rewrite toOrderItems_map. cbn [app].
  rewrite run_Call. cbv zeta.
  destruct (fst (client env _ w)) as [updated|err].
  - rewrite run_Call. cbv zeta.
    destruct (fst (client env (GetOrder _) _)) as [order|err] eqn:E.
    + rewrite run_Now. cbn. eexists; eexists. split; [reflexivity|].
      right. eexists. reflexivity.
    + cbn. eexists; eexists. split; [reflexivity|].
      right. eexists. reflexivity.
  - cbn. eexists; eexists. split; [reflexivity|]. left. reflexivity.
Qed.

(** *** What the host plans *)















(** The request built from items whose user-specified fields are known
    64-bit values carries those values. *)
Lemma toOrderItem_known (desired : list (int64 * int64)) :
  Forall pair_in_range desired ->
  forall items : list orderItemModel.t,
    user_fields items = map known_fields desired ->
    map toOrderItem items = map sent_item desired.
Proof.
  unfold user_fields.
  induction 1 as [|p desired [Hid Hq] Hrest IH]; intros [|item items];
    cbn; try discriminate; [reflexivity|].
  intros [= Eid Equantity Eitems]. rewrite (IH _ Eitems). f_equal.
  unfold toOrderItem, sent_item, int_of_int64.
  rewrite Eid, Equantity. cbn [types.ValueInt64].
  now rewrite !wrap64_in_range.
Qed.

(** C6.  The request of an update carries the whole planned item list: for
    planned items whose coffee identifiers and quantities are the known
    64-bit values [desired], the request holds, item for item and in
    order, exactly those coffee identifiers and quantities and nothing
    else.  The request is the same whatever the prior state is, and it is
    the only [UpdateOrder] of the update. *)
Theorem Update_sends_whole_list (plan : orderResourceModel.t)
    (desired : list (int64 * int64)) (state : tfsdk.State) (W : Type)
    (env : World W) (w : W) :
  Forall pair_in_range desired ->
  desired_of plan = map known_fields desired ->
  exists answer rest,
    trace_of (run env (UpdateResource (mkUpdateRequest (Some plan) state)) w)
    = Event
        (UpdateOrder (types.ValueString (orderResourceModel.ID plan))
           (map sent_item desired))
        answer
      :: rest
    /\ existsb is_UpdateOrder rest = false
    /\ List.length (map sent_item desired)
       = List.length (orderResourceModel.Items plan).
Proof.
  intros Hrange Hdesired.
  destruct (Update_trace plan state env w) as [answer [rest [E Hrest]]].
  cbv zeta in E. rewrite (toOrderItem_known Hrange _ Hdesired) in E.
  exists answer, rest. split; [exact E|]. split.
  - destruct Hrest as [->|[got ->]]; reflexivity.
  - apply (f_equal (@List.length _)) in Hdesired.
    unfold desired_of in Hdesired. now rewrite !length_map in *.
Qed.

Lemma Update_sends_whole_list_witness :
  Forall pair_in_range [(1, 3)]
  /\ desired_of (schema.plan (Some state42) [planned_item 1 3])
     = [(types.Int64Value 1, types.Int64Value 3)]
  /\ exists answer rest,
       trace_of (run (Remote.world stamp) (UpdateResource update42) remote42)
       = Event
           (UpdateOrder "42" [OrderItem.mk (Coffee.mk 1 "" "" "" 0 "" []) 3])
           answer
         :: rest
       /\ existsb is_UpdateOrder rest = false
       /\ List.length [sent_item (1, 3)] = 1%nat.
Proof.
  assert (H : Forall pair_in_range [(1, 3)])
    by (repeat constructor; unfold int64_range; cbn; lia).
  split; [exact H|]. split; [reflexivity|].
  apply (Update_sends_whole_list
           (schema.plan (Some state42) [planned_item 1 3]) (Some state42)
           (Remote.world stamp) remote42 H).
  reflexivity.
Defined.

(** ** Create *)

Lemma toOrderItem_wire_of (item : orderItemModel.t) :
  planned_in_range item -> toOrderItem item = wire_of item.
Proof.
  intros [Hid Hq]. unfold toOrderItem, wire_of, int_of_int64.
  now rewrite !wrap64_in_range.
Qed.

Lemma fromOrderItem_model_of (orderItem : OrderItem.t) :
  answered_in_range orderItem -> fromOrderItem orderItem = model_of orderItem.
Proof.
  intros [Hid Hq]. unfold fromOrderItem, model_of, int64_of_int.
  now rewrite !wrap64_in_range.
Qed.

Lemma map_toOrderItem_wire_of (items : list orderItemModel.t) :
  Forall planned_in_range items -> map toOrderItem items = map wire_of items.
Proof.
  intros H. apply map_ext_in. intros item Hin.
  apply toOrderItem_wire_of. rewrite Forall_forall in H. now apply H.
Qed.

Lemma map_fromOrderItem_model_of (items : list OrderItem.t) :
  Forall answered_in_range items -> map fromOrderItem items = map model_of items.
Proof.
  intros H. apply map_ext_in. intros item Hin.
  apply fromOrderItem_model_of. rewrite Forall_forall in H. now apply H.
Qed.

(** A create whose plan decodes makes exactly one call, [CreateOrder] with
    one wire item per planned item. *)
Lemma Create_run (plan : orderResourceModel.t) (W : Type) (env : World W)
    (w : W) :
  let sent := map toOrderItem (orderResourceModel.Items plan) in
  let answer := fst (client env (CreateOrder sent) w) in
  let w1 := snd (client env (CreateOrder sent) w) in
  run env (CreateResource (mkCreateRequest (Some plan))) w
  = (match answer with
     | Err err =>
         Returned
           (mkResponse None
              [diag.NewErrorDiagnostic "Error creating order"
                 ("An unexpected error was encountered trying to create the order."
                    ++ Error err)])
     | Ok order =>
         match overwriteItems (orderResourceModel.Items plan) 0
                 (Order.Items order) with
         | inl p => Panicked p
         | inr planItems =>
             Returned
               (mkResponse
                  (Some (orderResourceModel.mk
                           (types.StringValue (Itoa (Order.ID order)))
                           planItems
                           (types.StringValue (fst (clock env w1)))))
                  [])
         end
     end,
     match answer with
     | Err _ => w1
     | Ok order =>
         match overwriteItems (orderResourceModel.Items plan) 0
                 (Order.Items order) with
         | inl _ => w1
         | inr _ => snd (clock env w1)
         end
     end,
     [Event (CreateOrder sent) answer]).
Proof.
  cbv zeta. unfold CreateResource, Create. cbn -[run toOrderItems].
  rewrite toOrderItems_map. cbn [app].
  rewrite run_Call. cbv zeta.
  destruct (fst (client env _ w)) as [order|err].
  - destruct (overwriteItems _ 0 _) as [p|planItems].
    + reflexivity.
    + rewrite run_Now. reflexivity.
  - reflexivity.
Qed.

(** C4.  A create that succeeds sends one request, with exactly the
    coffee's identity key and the quantity of every planned item, and
    leaves a state whose identity key is the decimal text of the server's
    number and whose items are overwritten, position by position, with the
    coffees and quantities of the answer.  An answer with as many items as
    the plan overwrites them all. *)
Theorem Create_maps_answer (plan : orderResourceModel.t) (order : Order.t)
    (W : Type) (env : World W) (w w' : W) :
  Forall planned_in_range (orderResourceModel.Items plan) ->
  Forall answered_in_range (Order.Items order) ->
  client env (CreateOrder (map wire_of (orderResourceModel.Items plan))) w
  = (Ok order, w') ->
  (List.length (Order.Items order)
   <= List.length (orderResourceModel.Items plan))%nat ->
  run env (CreateResource (mkCreateRequest (Some plan))) w
  = (Returned
       (mkResponse
          (Some (orderResourceModel.mk
                   (types.StringValue (Itoa (Order.ID order)))
                   (map model_of (Order.Items order)
                      ++ skipn (List.length (Order.Items order))
                           (orderResourceModel.Items plan))
                   (types.StringValue (fst (clock env w')))))
          []),
     snd (clock env w'),
     [Event (CreateOrder (map wire_of (orderResourceModel.Items plan)))
        (Ok order)]).
Proof.
  intros Hplan Horder E Hlen.
  rewrite Create_run. cbv zeta.
  rewrite (map_toOrderItem_wire_of Hplan), E. cbn [fst snd].
  rewrite overwriteItems_from_start.
  apply Nat.leb_le in Hlen. rewrite Hlen.
  rewrite (map_fromOrderItem_model_of Horder). reflexivity.
Qed.

Lemma Create_maps_answer_witness :
  run answering42 (CreateResource create42) tt
  = (Returned (mkResponse (Some state42) []), tt,
     [Event (CreateOrder [OrderItem.mk (Coffee.mk 1 "" "" "" 0 "" []) 2])
        (Ok order42)]).
Proof.
  apply (Create_maps_answer (schema.plan None [planned_item 1 2])
           (order := order42) answering42 tt (w' := tt)).
  - repeat constructor; unfold int64_range; cbn; lia.
  - repeat constructor; unfold int64_range; cbn; lia.
  - reflexivity.
  - cbn. lia.
Defined.

(** C10.  [Create] writes the items of the answer into the planned slice by
    position.  Given a successful answer, it returns exactly when the
    answer has at most as many items as the plan, and otherwise panics with
    an index out of range, at the index that is the length of the planned
    slice. *)
Theorem Create_in_bounds_iff (plan : orderResourceModel.t) (order : Order.t)
    (W : Type) (env : World W) (w w' : W) :
  client env (CreateOrder (toOrderItems [] (orderResourceModel.Items plan))) w
  = (Ok order, w') ->
  let n := List.length (orderResourceModel.Items plan) in
  let r := run env (CreateResource (mkCreateRequest (Some plan))) w in
  ((exists response, outcome_of r = Returned response)
   <-> (List.length (Order.Items order) <= n)%nat)
  /\ (outcome_of r = Panicked (IndexOutOfRange n n)
      <-> (n < List.length (Order.Items order))%nat).
Proof.
  intros E. cbv zeta. rewrite Create_run. cbv zeta.
  rewrite toOrderItems_map in E. cbn [app] in E. rewrite E. cbn [fst snd].
  rewrite overwriteItems_from_start. unfold outcome_of. cbn [fst].
  destruct (Nat.leb_spec (List.length (Order.Items order))
              (List.length (orderResourceModel.Items plan))) as [Hle|Hlt].
  - split; split.
    + intros _. exact Hle.
    + intros _. eexists. reflexivity.
    + discriminate.
    + lia.
  - split; split.
    + intros [response H]. discriminate H.
    + lia.
    + intros _. exact Hlt.
    + intros _. reflexivity.
Qed.

Lemma Create_in_bounds_iff_witness :
  client answering43 (CreateOrder [toOrderItem (planned_item 1 2)]) tt
  = (Ok order43, tt)
  /\ (1 < List.length (Order.Items order43))%nat
  /\ outcome_of (run answering43 (CreateResource create42) tt)
     = Panicked (IndexOutOfRange 1 1).
Proof.
  split; [reflexivity|]. split; [cbn; lia|].
  apply (Create_in_bounds_iff (schema.plan None [planned_item 1 2])
           (order := order43) answering43 tt (w' := tt)).
  - reflexivity.
  - cbn. lia.
Defined.

(** ** Quantities *)

(** C9 fails as stated: the schema accepts a quantity of zero, the create
    request carries it to the remote, and the state stores it. *)
Lemma Create_sends_zero_quantity :
  schema.accepts schema.quantity 0 = true
  /\ run (Remote.world stamp)
       (CreateResource
          (mkCreateRequest (Some (schema.plan None [planned_item 1 0]))))
       (Remote.mk [] 42 [])
     = (Returned
          (mkResponse
             (Some (orderResourceModel.mk (types.StringValue "42")
                      [orderItemModel.mk
                         (orderItemCoffeeModel.mk (types.Int64Value 1)
                            (types.StringValue "") (types.StringValue "")
                            (types.StringValue "") (types.Float64Value 0)
                            (types.StringValue ""))
                         (types.Int64Value 0)]
                      (types.StringValue stamp)))
             []),
        Remote.mk
          [Order.mk 42 [OrderItem.mk (Coffee.mk 1 "" "" "" 0 "" []) 0]] 43 [],
        [Event (CreateOrder [OrderItem.mk (Coffee.mk 1 "" "" "" 0 "" []) 0])
           (Ok (Order.mk 42
                  [OrderItem.mk (Coffee.mk 1 "" "" "" 0 "" []) 0]))]).
Proof.
  split; [reflexivity|]. vm_compute. reflexivity.
Qed.

(** The quantities of model items are the second user-specified field. *)
Lemma Quantity_user_fields (items : list orderItemModel.t) :
  map orderItemModel.Quantity items = map snd (user_fields items).
Proof. unfold user_fields. rewrite map_map. reflexivity. Qed.

Lemma Quantity_fromOrderItem (orderItems : list OrderItem.t) :
  Forall answered_in_range orderItems ->
  map orderItemModel.Quantity (map fromOrderItem orderItems)
  = map (fun i => types.Int64Value (OrderItem.Quantity i)) orderItems.
Proof.
  intros H. rewrite (map_fromOrderItem_model_of H), map_map. reflexivity.
Qed.

(** C9, as the code has it.  The schema puts no bound on a quantity.  For
    planned items whose coffee identifiers and quantities are the known
    64-bit values [desired], the requests of a create and of an update
    carry exactly those quantities, positive or not.  The quantities a
    create stores are the ones of the answer, item by item, and the
    planned ones where the answer has no item; the quantities an update
    stores are the ones read back. *)
Theorem quantities_sent_as_planned (plan : orderResourceModel.t)
    (desired : list (int64 * int64)) (state : tfsdk.State) (W : Type)
    (env : World W) (w : W) :
  Forall pair_in_range desired ->
  desired_of plan = map known_fields desired ->
  let planID := types.ValueString (orderResourceModel.ID plan) in
  let create := run env (CreateResource (mkCreateRequest (Some plan))) w in
  let update :=
    run env (UpdateResource (mkUpdateRequest (Some plan) state)) w in
  (forall q, schema.accepts schema.quantity q = true)
  /\ (exists answer,
        trace_of create = [Event (CreateOrder (map sent_item desired)) answer]
        /\ map OrderItem.Quantity (map sent_item desired) = map snd desired)
  /\ (exists answer rest,
        trace_of update
        = Event (UpdateOrder planID (map sent_item desired)) answer :: rest)
  /\ (forall order response created,
        fst (client env (CreateOrder (map sent_item desired)) w) = Ok order ->
        Forall answered_in_range (Order.Items order) ->
        outcome_of create = Returned response ->
        State response = Some created ->
        map orderItemModel.Quantity (orderResourceModel.Items created)
        = map (fun i => types.Int64Value (OrderItem.Quantity i))
            (Order.Items order)
          ++ skipn (List.length (Order.Items order))
               (map (fun p => types.Int64Value (snd p)) desired))
  /\ (forall updated got w1,
        client env (UpdateOrder planID (map sent_item desired)) w
        = (Ok updated, w1) ->
        fst (client env (GetOrder planID) w1) = Ok got ->
        Forall answered_in_range (Order.Items got) ->
        exists response stored,
          outcome_of update = Returned response
          /\ State response = Some stored
          /\ map orderItemModel.Quantity (orderResourceModel.Items stored)
             = map (fun i => types.Int64Value (OrderItem.Quantity i))
                 (Order.Items got)).
Proof.
  intros Hrange Hdesired planID create update. subst planID create update.
  pose proof (toOrderItem_known Hrange _ Hdesired) as Hsent.
  split; [reflexivity|]. split; [|split; [|split]].
  - rewrite Create_run. cbv zeta. rewrite Hsent. eexists.
    split; [reflexivity|]. rewrite map_map. reflexivity.
  - destruct (Update_trace plan state env w) as [answer [rest [E _]]].
    cbv zeta in E. rewrite Hsent in E. now exists answer, rest.
  - intros order response created Hanswer Horder.
    rewrite Create_run. cbv zeta. rewrite Hsent, Hanswer.
    unfold outcome_of. cbn [fst]. rewrite overwriteItems_from_start.
    destruct (List.length (Order.Items order)
              <=? List.length (orderResourceModel.Items plan))%nat;
      [|discriminate].
    intros [= <-]. cbn [State]. intros [= <-].
    cbn [orderResourceModel.Items].
    rewrite map_app, (Quantity_fromOrderItem Horder). f_equal.
    rewrite <- skipn_map, Quantity_user_fields.
    change (user_fields (orderResourceModel.Items plan))
      with (desired_of plan).
    rewrite Hdesired, map_map. reflexivity.
  - intros updated got w1 E1 E2 Hgot.
    rewrite Update_run. cbv zeta. rewrite Hsent, E1. cbn [fst snd].
    rewrite E2. eexists; eexists. split; [reflexivity|].
    split; [reflexivity|]. cbn [orderResourceModel.Items].
    apply (Quantity_fromOrderItem Hgot).
Qed.

Lemma quantities_sent_as_planned_witness :
  Forall pair_in_range [(1, 2)]
  /\ desired_of (schema.plan None [planned_item 1 2])
     = [(types.Int64Value 1, types.Int64Value 2)]
  /\ trace_of (run answering_none (CreateResource create42) tt)
     = [Event (CreateOrder [OrderItem.mk (Coffee.mk 1 "" "" "" 0 "" []) 2])
          (Ok order_of_none)]
  /\ map orderItemModel.Quantity
       [fromOrderItem (OrderItem.mk latte 0)]
     = [types.Int64Value 0].
Proof.
  assert (H : Forall pair_in_range [(1, 2)])
    by (repeat constructor; unfold int64_range; cbn; lia).
  split; [exact H|]. split; [reflexivity|]. split; [reflexivity|].
  apply (proj1 (proj2 (proj2 (proj2
           (quantities_sent_as_planned
              (schema.plan None [planned_item 1 2]) None answering_none tt
              H eq_refl))))
           order_of_none
           (mkResponse
              (Some (orderResourceModel.mk (types.StringValue "42")
                       [fromOrderItem (OrderItem.mk latte 0)]
                       (types.StringValue stamp)))
              [])
           (orderResourceModel.mk (types.StringValue "42")
              [fromOrderItem (OrderItem.mk latte 0)]
              (types.StringValue stamp))).
  - reflexivity.
  - repeat constructor; unfold int64_range; cbn; lia.
  - reflexivity.
  - reflexivity.
Defined.

(** ** Identity keys *)

Example Itoa_42 : Itoa 42 = "42".
Proof. reflexivity. Qed.

Example Itoa_negative : Itoa (-7) = "-7".
Proof. reflexivity. Qed.

Example Itoa_zero : Itoa 0 = "0".
Proof. reflexivity. Qed.

Example Itoa_max : Itoa (2 ^ 63 - 1) = "9223372036854775807".
Proof. vm_compute. reflexivity. Qed.




(** ** Destroy *)

Lemma find_filter_negb {A : Type} (f : A -> bool) (l : list A) :
  find f (filter (fun x => negb (f x)) l) = None.
Proof.
  induction l as [|x l IH]; cbn; [reflexivity|].
  destruct (f x) eqn:E; cbn; [exact IH|]. now rewrite E.
Qed.

(** Deleting an order the remote does not hold succeeds and changes
    nothing. *)
Lemma Delete_absent (r : Remote.t) (state : orderResourceModel.t)
    (now : string) :
  Remote.lookup r (types.ValueString (orderResourceModel.ID state)) = None ->
  run (Remote.world now) (DeleteResource (mkDeleteRequest (Some state))) r
  = (Returned (mkResponse None []), r,
     [Event (DeleteOrder (types.ValueString (orderResourceModel.ID state)))
        None]).
Proof.
  intros E. unfold DeleteResource. rewrite run_after.
  unfold Delete. cbn -[run]. rewrite run_Call. cbn.
  unfold Remote.deleteOrder. rewrite E. reflexivity.
Qed.

(** C7.  Against the remote of the specification, a destroy that follows a
    destroy of the same identity key that reported no error reports no error
    either: its delete of the absent object succeeds, the remote is left as
    it was, and the resource stays out of the state. *)
Theorem Delete_twice_succeeds (r : Remote.t) (state : orderResourceModel.t)
    (now : string) (response : Response) :
  let destroy := DeleteResource (mkDeleteRequest (Some state)) in
  let first := run (Remote.world now) destroy r in
  outcome_of first = Returned response ->
  diag.HasError (Diagnostics response) = false ->
  run (Remote.world now) destroy (world_of first)
  = (Returned (mkResponse None []), world_of first,
     [Event (DeleteOrder (types.ValueString (orderResourceModel.ID state)))
        None]).
Proof.
  cbv zeta. intros Hout Herr. apply Delete_absent.
  revert Hout. unfold DeleteResource. rewrite run_after.
  unfold Delete. cbn -[run]. rewrite run_Call. cbn.
  unfold Remote.deleteOrder.
  destruct (Remote.lookup r _) as [o|] eqn:E.
  - destruct (existsb _ (Remote.held r)).
    + cbn. intros [= <-]. cbn in Herr. discriminate Herr.
    + cbn. intros _. unfold Remote.lookup. cbn. apply find_filter_negb.
  - cbn. intros _. exact E.
Qed.

Lemma Delete_twice_succeeds_witness :
  outcome_of (run (Remote.world stamp)
                (DeleteResource (mkDeleteRequest (Some state42))) remote42)
  = Returned (mkResponse None [])
  /\ run (Remote.world stamp)
       (DeleteResource (mkDeleteRequest (Some state42)))
       (Remote.mk [] 43 [])
     = (Returned (mkResponse None []), Remote.mk [] 43 [],
        [Event (DeleteOrder "42") None]).
Proof.
  split; [vm_compute; reflexivity|].
  apply (Delete_twice_succeeds remote42 state42 stamp
           (response := mkResponse None [])).
  - vm_compute. reflexivity.
  - reflexivity.
Defined.

(** ** The identity key over the life of a resource *)

(** The request built from planned items is the one built from the
    configured items. *)
Lemma toOrderItem_plannedItem (desired : list orderItemModel.t) :
  map toOrderItem (map schema.plannedItem desired) = map toOrderItem desired.
Proof. rewrite map_map. reflexivity. Qed.

(** The plan of a resource in the state has the identity key of the
    state. *)
Lemma plan_keeps_ID (state : orderResourceModel.t)
    (desired : list orderItemModel.t) :
  orderResourceModel.ID (schema.plan (Some state) desired)
  = orderResourceModel.ID state.
Proof.
  unfold schema.plan. cbv zeta.
  destruct (schema.model_eqb _ state); reflexivity.
Qed.

(** A refresh or an apply returns with the resource in the state under the
    identity key it had, whatever the client answers. *)
Lemma act_keeps_ID (a : action) (state : orderResourceModel.t) (W : Type)
    (env : World W) (w : W) :
  exists response state1,
    outcome_of (run env (act a state) w) = Returned response
    /\ State response = Some state1
    /\ orderResourceModel.ID state1 = orderResourceModel.ID state.
Proof.
  destruct a as [|desired]; cbn [act].
  - rewrite Read_run. cbv zeta.
    destruct (fst (client env _ w)) as [order|err]; cbn;
      eexists; eexists; repeat split; reflexivity.
  - destruct (schema.changed state desired).
    + rewrite Update_run. cbv zeta.
      destruct (fst (client env _ w)) as [updated|err].
      * destruct (fst (client env (GetOrder _) _)) as [order|err].
        -- eexists; eexists. split; [reflexivity|]. split; [reflexivity|].
           apply plan_keeps_ID.
        -- eexists; eexists; repeat split; reflexivity.
      * eexists; eexists; repeat split; reflexivity.
    + eexists; eexists; repeat split; reflexivity.
Qed.

(** C8.  No plan of a create has an identity key and no resource is in the
    state before it; a create leaves no resource in the state or one whose
    key is the decimal text of the number in the server's answer.  From
    then on, whatever refreshes and applies follow and whatever the client
    answers, in success and in failure, the resource stays in the state
    under the same identity key. *)
Theorem identity_key_immutable (actions : list action)
    (state : orderResourceModel.t) (desired : list orderItemModel.t)
    (W : Type) (env : World W) (w : W) :
  orderResourceModel.ID (schema.plan None desired) = types.StringUnknown
  /\ prior (OpCreate (mkCreateRequest (Some (schema.plan None desired))))
     = None
  /\ match
       outcome_of
         (run env
            (CreateResource
               (mkCreateRequest (Some (schema.plan None desired)))) w)
     with
     | Returned response =>
         State response = None
         \/ exists order created,
              fst (client env (CreateOrder (map toOrderItem desired)) w)
              = Ok order
              /\ State response = Some created
              /\ orderResourceModel.ID created
                 = types.StringValue (Itoa (Order.ID order))
     | Panicked _ => True
     end
  /\ exists final,
       fst (session env actions state w) = Some final
       /\ orderResourceModel.ID final = orderResourceModel.ID state.
Proof.
  split; [reflexivity|]. split; [reflexivity|]. split.
  { rewrite Create_run. cbv zeta. unfold outcome_of. cbn [fst].
    cbn [schema.plan orderResourceModel.Items].
    rewrite toOrderItem_plannedItem.
    destruct (fst (client env _ w)) as [order|err].
    - destruct (overwriteItems (map schema.plannedItem desired) 0
                  (Order.Items order)) as [p|items].
      + exact I.
      + right. eexists; eexists. repeat split; reflexivity.
    - left. reflexivity. }
  revert state w.
  induction actions as [|a rest IH]; intros state w; cbn [session].
  - exists state. split; reflexivity.
  - destruct (act_keeps_ID a state env w)
      as [response [state1 [Hout [Hstate Hid]]]].
    unfold outcome_of in Hout.
    destruct (run env (act a state) w) as [[o w1] tr]. cbn [fst] in Hout.
    subst o. rewrite Hstate.
    destruct (IH state1 w1) as [final [Hfinal Hfid]].
    exists final. split; [exact Hfinal|]. congruence.
Qed.

(** * Further properties of the handlers *)

(** [Append] keeps what the collection holds, in order. *)
Lemma Append_extends (new : list diag.Diagnostic) :
  forall diags, exists extra, diag.Append diags new = diags ++ extra.
Proof.
  induction new as [|d rest IH]; intros diags; cbn [diag.Append].
  - exists []. now rewrite app_nil_r.
  - destruct (diag.Contains diags d).
    + apply IH.
    + destruct (IH (diags ++ [d])) as [extra E].
      exists (d :: extra). rewrite E, <- app_assoc. reflexivity.
Qed.

Lemma HasError_Append (diags : diag.Diagnostics)
    (new : list diag.Diagnostic) :
  diag.HasError diags = true -> diag.HasError (diag.Append diags new) = true.
Proof.
  intros H. destruct (Append_extends new diags) as [extra ->].
  rewrite HasError_app, H. reflexivity.
Qed.

(** ** Refresh *)

(** X1.  A refresh whose read succeeds puts the items of the answer in the
    place of the items of the state, one for one and in order, and keeps the
    identity key and the time of the last update of the state, whatever
    number the answer carries.  The read is its only call and it does not
    look at the clock. *)
Theorem Read_replaces_items (state : orderResourceModel.t) (order : Order.t)
    (W : Type) (env : World W) (w w' : W) :
  client env (GetOrder (types.ValueString (orderResourceModel.ID state))) w
  = (Ok order, w') ->
  run env (ReadResource (mkReadRequest (Some state))) w
  = (Returned
       (mkResponse
          (Some (orderResourceModel.mk (orderResourceModel.ID state)
                   (map fromOrderItem (Order.Items order))
                   (orderResourceModel.LastUpdated state)))
          []),
     w',
     [Event (GetOrder (types.ValueString (orderResourceModel.ID state)))
        (Ok order)]).
Proof.
  intros E. rewrite Read_run. cbv zeta. rewrite E. reflexivity.
Qed.

Lemma Read_replaces_items_witness :
  run answering43 (ReadResource (mkReadRequest (Some state42))) tt
  = (Returned
       (mkResponse
          (Some (orderResourceModel.mk (types.StringValue "42")
                   [fromOrderItem (OrderItem.mk latte 2);
                    fromOrderItem (OrderItem.mk latte 1)]
                   (types.StringValue stamp)))
          []),
     tt, [Event (GetOrder "42") (Ok order43)]).
Proof.
  apply (Read_replaces_items state42 (order := order43) answering43 tt
           (w' := tt)).
  reflexivity.
Defined.

(** X2.  A refresh is idempotent: when the client answers a second read of
    the order as it answered the first, a refresh of the state the first
    refresh left returns that state again. *)
Theorem Read_idempotent (state : orderResourceModel.t) (order : Order.t)
    (W : Type) (env : World W) (w w1 w2 : W) (response : Response) :
  client env (GetOrder (types.ValueString (orderResourceModel.ID state))) w
  = (Ok order, w1) ->
  client env (GetOrder (types.ValueString (orderResourceModel.ID state))) w1
  = (Ok order, w2) ->
  outcome_of (run env (ReadResource (mkReadRequest (Some state))) w)
  = Returned response ->
  outcome_of (run env (ReadResource (mkReadRequest (State response))) w1)
  = Returned response.
Proof.
  intros E1 E2. rewrite Read_run. cbv zeta. rewrite E1.
  unfold outcome_of. cbn [fst]. intros [= <-]. cbn [State].
  rewrite Read_run. cbv zeta. cbn [orderResourceModel.ID]. rewrite E2.
  reflexivity.
Qed.

Lemma Read_idempotent_witness :
  outcome_of (run (Remote.world stamp)
                (ReadResource (mkReadRequest (Some state42))) remote42)
  = Returned (mkResponse (Some state42) [])
  /\ outcome_of (run (Remote.world stamp)
                   (ReadResource (mkReadRequest (Some state42))) remote42)
     = Returned (mkResponse (Some state42) []).
Proof.
  split; [vm_compute; reflexivity|].
  apply (Read_idempotent state42 (order := order42) (Remote.world stamp)
           remote42 (w1 := remote42) (w2 := remote42)
           (response := mkResponse (Some state42) [])).
  - vm_compute. reflexivity.
  - vm_compute. reflexivity.
  - vm_compute. reflexivity.
Defined.

(** ** Update *)

(** X3.  An update that succeeds stores the identity key of the plan, the
    items that [GetOrder] read back and the time of the clock.  Neither the
    order [UpdateOrder] answered with, nor the planned items, nor the prior
    state is in the state it leaves. *)
Theorem Update_stores_read_back (plan : orderResourceModel.t)
    (state : tfsdk.State) (updated order : Order.t) (W : Type)
    (env : World W) (w w1 w2 : W) :
  let planID := types.ValueString (orderResourceModel.ID plan) in
  let sent := map toOrderItem (orderResourceModel.Items plan) in
  client env (UpdateOrder planID sent) w = (Ok updated, w1) ->
  client env (GetOrder planID) w1 = (Ok order, w2) ->
  run env (UpdateResource (mkUpdateRequest (Some plan) state)) w
  = (Returned
       (mkResponse
          (Some (orderResourceModel.mk (orderResourceModel.ID plan)
                   (map fromOrderItem (Order.Items order))
                   (types.StringValue (fst (clock env w2)))))
          []),
     snd (clock env w2),
     [Event (UpdateOrder planID sent) (Ok updated);
      Event (GetOrder planID) (Ok order)]).
Proof.
  cbv zeta. intros E1 E2. rewrite Update_run. cbv zeta.
  rewrite E1. cbn [fst snd]. rewrite E2. reflexivity.
Qed.

Lemma Update_stores_read_back_witness :
  run (Remote.world stamp) (UpdateResource update42) remote42
  = (Returned
       (mkResponse
          (Some (orderResourceModel.mk (types.StringValue "42")
                   [fromOrderItem
                      (OrderItem.mk (Coffee.mk 1 "" "" "" 0 "" []) 3)]
                   (types.StringValue stamp)))
          []),
     Remote.mk
       [Order.mk 42 [OrderItem.mk (Coffee.mk 1 "" "" "" 0 "" []) 3]] 43 [],
     [Event (UpdateOrder "42" [OrderItem.mk (Coffee.mk 1 "" "" "" 0 "" []) 3])
        (Ok (Order.mk 42 [OrderItem.mk (Coffee.mk 1 "" "" "" 0 "" []) 3]));
      Event (GetOrder "42")
        (Ok (Order.mk 42 [OrderItem.mk (Coffee.mk 1 "" "" "" 0 "" []) 3]))]).
Proof.
  apply (Update_stores_read_back
           (schema.plan (Some state42) [planned_item 1 3]) (Some state42)
           (updated := Order.mk 42
                         [OrderItem.mk (Coffee.mk 1 "" "" "" 0 "" []) 3])
           (order := Order.mk 42
                       [OrderItem.mk (Coffee.mk 1 "" "" "" 0 "" []) 3])
           (Remote.world stamp) remote42
           (w1 := Remote.mk
                    [Order.mk 42
                       [OrderItem.mk (Coffee.mk 1 "" "" "" 0 "" []) 3]] 43 [])
           (w2 := Remote.mk
                    [Order.mk 42
                       [OrderItem.mk (Coffee.mk 1 "" "" "" 0 "" []) 3]] 43 [])).
  - vm_compute. reflexivity.
  - vm_compute. reflexivity.
Defined.

(** X4.  When [UpdateOrder] succeeds and the read back fails, the update
    returns with the prior state and the error of the read: the remote has
    taken the new items, the state has not, and the update makes no further
    call to undo or retry. *)
Theorem Update_read_back_failure (plan : orderResourceModel.t)
    (state : tfsdk.State) (updated : Order.t) (err : error) (W : Type)
    (env : World W) (w w1 w2 : W) :
  let planID := types.ValueString (orderResourceModel.ID plan) in
  let sent := map toOrderItem (orderResourceModel.Items plan) in
  client env (UpdateOrder planID sent) w = (Ok updated, w1) ->
  client env (GetOrder planID) w1 = (Err err, w2) ->
  run env (UpdateResource (mkUpdateRequest (Some plan) state)) w
  = (Returned (mkResponse state [read_error planID err]),
     w2,
     [Event (UpdateOrder planID sent) (Ok updated);
      Event (GetOrder planID) (Err err)]).
Proof.
  cbv zeta. intros E1 E2. rewrite Update_run. cbv zeta.
  rewrite E1. cbn [fst snd]. rewrite E2. reflexivity.
Qed.

Lemma Update_read_back_failure_witness :
  run read_back_fails (UpdateResource update42) tt
  = (Returned (mkResponse (Some state42) [read_error "42" unprocessable]),
     tt,
     [Event (UpdateOrder "42" [OrderItem.mk (Coffee.mk 1 "" "" "" 0 "" []) 3])
        (Ok order42);
      Event (GetOrder "42") (Err unprocessable)]).
Proof.
  apply (Update_read_back_failure
           (schema.plan (Some state42) [planned_item 1 3]) (Some state42)
           (updated := order42) (err := unprocessable) read_back_fails tt
           (w1 := tt) (w2 := tt)).
  - reflexivity.
  - reflexivity.
Defined.

(** ** All four operations *)

Lemma string_app_assoc (a b c : string) :
  ((a ++ b) ++ c)%string = (a ++ b ++ c)%string.
Proof.
  induction a as [|x a IH]; cbn; [reflexivity|]. now rewrite IH.
Qed.

Lemma read_error_detail (stateID : string) (err : error) :
  read_error stateID err
  = diag.NewErrorDiagnostic "Error Reading HashiCups Order"
      (("Could not read HashiCups order ID " ++ stateID ++ ": ")
         ++ Error err).
Proof.
  unfold read_error. f_equal.
  rewrite (string_app_assoc "Could not read HashiCups order ID "),
    string_app_assoc.
  reflexivity.
Qed.

(** X5.  An operation stops at the first call the client fails: the failed
    call is the last one it makes, and it returns with exactly one
    diagnostic, an error whose detail ends with the text of the client's
    error. *)
Theorem failure_ends_operation (op : operation) (W : Type) (env : World W)
    (w : W) :
  existsb failed (trace_of (run env (program op) w)) = true ->
  exists before e err response summary prefix,
    trace_of (run env (program op) w) = before ++ [e]
    /\ existsb failed before = false
    /\ error_of e = Some err
    /\ outcome_of (run env (program op) w) = Returned response
    /\ Diagnostics response
       = [diag.NewErrorDiagnostic summary (prefix ++ Error err)].
Proof.
  destruct op as [[plan]|[state]|[plan state]|[state]]; cbn [program].
  - destruct plan as [plan|]; [|cbn; discriminate].
    rewrite Create_run. cbv zeta.
    destruct (fst (client env _ w)) as [order|err] eqn:E.
    + cbn. discriminate.
    + intros _. exists [].
      eexists; exists err; eexists; eexists; eexists.
      repeat split; reflexivity.
  - destruct state as [state|]; [|cbn; discriminate].
    rewrite Read_run. cbv zeta.
    destruct (fst (client env _ w)) as [order|err] eqn:E.
    + cbn. discriminate.
    + rewrite read_error_detail. intros _. exists [].
      eexists; exists err; eexists; eexists; eexists.
      repeat split; reflexivity.
  - destruct plan as [plan|]; [|cbn; discriminate].
    rewrite Update_run. cbv zeta.
    destruct (fst (client env _ w)) as [updated|err] eqn:E.
    + destruct (fst (client env (GetOrder _) _)) as [order|err] eqn:E2.
      * cbn. discriminate.
      * rewrite read_error_detail. intros _. eexists [_].
        eexists; exists err; eexists; eexists; eexists.
        repeat split; reflexivity.
    + intros _. exists [].
      eexists; exists err; eexists; eexists; eexists.
      repeat split; reflexivity.
  - destruct state as [state|]; [|cbn; discriminate].
    rewrite Delete_run. cbv zeta.
    destruct (fst (client env _ w)) as [err|] eqn:E.
    + intros _. exists [].
      eexists; exists err; eexists; eexists; eexists.
      repeat split; reflexivity.
    + cbn. discriminate.
Qed.

Lemma failure_ends_operation_witness :
  existsb failed
    (trace_of (run read_back_fails (program (OpUpdate update42)) tt))
  = true
  /\ exists before e err response summary prefix,
       trace_of (run read_back_fails (program (OpUpdate update42)) tt)
       = before ++ [e]
       /\ existsb failed before = false
       /\ error_of e = Some err
       /\ outcome_of (run read_back_fails (program (OpUpdate update42)) tt)
          = Returned response
       /\ Diagnostics response
          = [diag.NewErrorDiagnostic summary (prefix ++ Error err)].
Proof.
  split; [reflexivity|].
  apply (failure_ends_operation (OpUpdate update42) read_back_fails tt).
  reflexivity.
Defined.

(** X6.  Every call of an operation addresses one identity key: a refresh
    and a destroy the key of the state, an update the key of the plan (and
    not the one of the prior state), with the empty text for a key that is
    null or unknown; the call of a create carries no key. *)
Theorem calls_address_one_key (op : operation) (W : Type) (env : World W)
    (w : W) :
  Forall (fun e => key_of e = addressed op)
    (trace_of (run env (program op) w)).
Proof.
  destruct op as [[plan]|[state]|[plan state]|[state]];
    cbn [program addressed].
  - destruct plan as [plan|]; [|constructor].
    rewrite Create_run. cbv zeta. repeat constructor.
  - destruct state as [state|]; [|constructor].
    rewrite Read_run. cbv zeta. repeat constructor.
  - destruct plan as [plan|]; [|constructor].
    rewrite Update_run. cbv zeta.
    destruct (fst (client env _ w)) as [updated|err].
    + destruct (fst (client env (GetOrder _) _)) as [order|err];
        repeat constructor.
    + repeat constructor.
  - destruct state as [state|]; [|constructor].
    rewrite Delete_run. cbv zeta. repeat constructor.
Qed.

(** X7.  A handler that is given a response with an error diagnostic, or a
    plan or state that is the null object, returns at once: it calls
    neither the client nor the clock, leaves the state of the response as
    it is and returns with an error diagnostic. *)
Theorem handler_returns_early (op : operation) (response : Response)
    (W : Type) (env : World W) (w : W) :
  diag.HasError (Diagnostics response) = true \/ decoded op = None ->
  exists response',
    run env (handler op response) w = (Returned response', w, [])
    /\ State response' = State response
    /\ diag.HasError (Diagnostics response') = true.
Proof.
  intros H.
  assert (Hdiag :
    diag.HasError
      (diag.Append (Diagnostics response) (fst (tfsdk.Get (decoded op))))
    = true).
  { destruct H as [H|H].
    - now apply HasError_Append.
    - rewrite H. apply HasError_AddError. }
  destruct op as [[plan]|[state]|[plan state]|[state]];
    cbn [handler decoded CreatePlan ReadState UpdatePlan DeleteState] in *.
  - unfold Create. cbn [CreatePlan].
    destruct (tfsdk.Get plan) as [diags m]. cbn [fst] in Hdiag.
    cbn [with_Diagnostics Diagnostics State]. rewrite Hdiag.
    eexists. split; [reflexivity|]. split; [reflexivity|exact Hdiag].
  - unfold Read. cbn [ReadState].
    destruct (tfsdk.Get state) as [diags m]. cbn [fst] in Hdiag.
    cbn [with_Diagnostics Diagnostics State]. rewrite Hdiag.
    eexists. split; [reflexivity|]. split; [reflexivity|exact Hdiag].
  - unfold Update. cbn [UpdatePlan].
    destruct (tfsdk.Get plan) as [diags m]. cbn [fst] in Hdiag.
    cbn [with_Diagnostics Diagnostics State]. rewrite Hdiag.
    eexists. split; [reflexivity|]. split; [reflexivity|exact Hdiag].
  - unfold Delete. cbn [DeleteState].
    destruct (tfsdk.Get state) as [diags m]. cbn [fst] in Hdiag.
    cbn [with_Diagnostics Diagnostics State]. rewrite Hdiag.
    eexists. split; [reflexivity|]. split; [reflexivity|exact Hdiag].
Qed.

Lemma handler_returns_early_witness :
  diag.HasError (Diagnostics failed_before) = true
  /\ exists response',
       run answering42 (handler (OpUpdate update42) failed_before) tt
       = (Returned response', tt, [])
       /\ State response' = State failed_before
       /\ diag.HasError (Diagnostics response') = true.
Proof.
  split; [reflexivity|].
  apply (handler_returns_early (OpUpdate update42) failed_before
           answering42 tt).
  left. reflexivity.
Defined.

(** ** Create *)

(** X8.  Whatever the client answers, a create that leaves a resource in the
    state leaves it with as many items as the plan has: an answer with
    fewer items overwrites only the first ones, and one with more does not
    return. *)
Theorem Create_keeps_item_count (plan : orderResourceModel.t) (W : Type)
    (env : World W) (w : W) (response : Response)
    (created : orderResourceModel.t) :
  outcome_of (run env (CreateResource (mkCreateRequest (Some plan))) w)
  = Returned response ->
  State response = Some created ->
  List.length (orderResourceModel.Items created)
  = List.length (orderResourceModel.Items plan).
Proof.
  rewrite Create_run. cbv zeta. unfold outcome_of. cbn [fst].
  destruct (fst (client env _ w)) as [order|err].
  - rewrite overwriteItems_from_start.
    destruct (Nat.leb_spec (List.length (Order.Items order))
                (List.length (orderResourceModel.Items plan))) as [Hle|Hlt].
    + intros [= <-]. cbn [State]. intros [= <-].
      cbn [orderResourceModel.Items].
      rewrite length_app, length_map, length_skipn. lia.
    + discriminate.
  - intros [= <-]. cbn [State]. discriminate.
Qed.

Lemma desired_round_trip (items : list orderItemModel.t)
    (answered : list OrderItem.t) :
  Forall known_in_range items ->
  map wire_pair answered = map wire_pair (map toOrderItem items) ->
  map (fun item =>
         (orderItemCoffeeModel.ID (orderItemModel.Coffee item),
          orderItemModel.Quantity item))
      (map fromOrderItem answered)
  = map (fun item =>
           (orderItemCoffeeModel.ID (orderItemModel.Coffee item),
            orderItemModel.Quantity item))
        items.
Proof.
  intros Hk. revert answered.
  induction Hk as [|item items Hitem Hitems IH]; intros answered E.
  - destruct answered; [reflexivity|discriminate E].
  - destruct answered as [|a answered]; [discriminate E|].
    cbn [map] in *. unfold wire_pair at 1 3 in E. cbn in E.
    injection E as Eid Equantity Erest.
    rewrite (IH _ Erest). f_equal.
    destruct Hitem as [coffeeID [quantity [Hid [Hq [Rid Rq]]]]].
    rewrite Hid, Hq in *. cbn in Eid, Equantity.
    unfold int_of_int64 in *.
    rewrite wrap64_in_range in Eid, Equantity by assumption.
    cbn. unfold int64_of_int. rewrite Eid, Equantity.
    now rewrite !wrap64_in_range.
Qed.

(** X9.  The user-specified fields survive the way to the remote and back:
    when the planned coffee identifiers and quantities are known 64-bit
    values and the client answers the create with items of the same coffee
    identifiers and quantities, whatever else it fills in, the state the
    create leaves has the user-specified fields of the plan. *)
Theorem Create_round_trip (plan : orderResourceModel.t) (order : Order.t)
    (W : Type) (env : World W) (w w' : W) :
  Forall known_in_range (orderResourceModel.Items plan) ->
  client env (CreateOrder (map toOrderItem (orderResourceModel.Items plan))) w
  = (Ok order, w') ->
  map wire_pair (Order.Items order)
  = map wire_pair (map toOrderItem (orderResourceModel.Items plan)) ->
  exists response created,
    outcome_of (run env (CreateResource (mkCreateRequest (Some plan))) w)
    = Returned response
    /\ State response = Some created
    /\ desired_of created = desired_of plan.
Proof.
  intros Hk E Hecho. rewrite Create_run. cbv zeta. rewrite E. cbn [fst snd].
  rewrite overwriteItems_from_start.
  assert (Hlen : List.length (Order.Items order)
                 = List.length (orderResourceModel.Items plan)).
  { apply (f_equal (@List.length _)) in Hecho.
    now rewrite !length_map in Hecho. }
  rewrite Hlen, Nat.leb_refl, skipn_all, app_nil_r.
  eexists; eexists. split; [reflexivity|]. split; [reflexivity|].
  unfold desired_of. cbn [orderResourceModel.Items].
  now apply desired_round_trip.
Qed.

Lemma Create_round_trip_witness :
  exists response created,
    outcome_of (run answering42 (CreateResource create42) tt)
    = Returned response
    /\ State response = Some created
    /\ desired_of created
       = [(types.Int64Value 1, types.Int64Value 2)].
Proof.
  apply (Create_round_trip (schema.plan None [planned_item 1 2])
           (order := order42) answering42 tt (w' := tt)).
  - repeat constructor. exists 1, 2. unfold int64_range. cbn.
    repeat split; lia.
  - reflexivity.
  - reflexivity.
Defined.

Lemma Create_keeps_item_count_witness :
  outcome_of (run answering42 (CreateResource create42) tt)
  = Returned (mkResponse (Some state42) [])
  /\ List.length (orderResourceModel.Items state42) = 1%nat.
Proof.
  split; [reflexivity|].
  apply (Create_keeps_item_count (schema.plan None [planned_item 1 2])
           answering42 tt (response := mkResponse (Some state42) [])
           (created := state42)).
  - reflexivity.
  - reflexivity.
Defined.

(** X10.  A refresh right after a create changes nothing: when the answer
    to the create has as many items as the plan and the client then reads
    the order back, under the key the create stored, with the same items,
    the refresh returns the response of the create. *)
Theorem Read_after_Create_stable (plan : orderResourceModel.t)
    (order order' : Order.t) (W : Type) (env : World W) (w w1 w2 : W)
    (response : Response) :
  client env (CreateOrder (map toOrderItem (orderResourceModel.Items plan))) w
  = (Ok order, w1) ->
  List.length (Order.Items order)
  = List.length (orderResourceModel.Items plan) ->
  client env (GetOrder (Itoa (Order.ID order))) (snd (clock env w1))
  = (Ok order', w2) ->
  Order.Items order' = Order.Items order ->
  outcome_of (run env (CreateResource (mkCreateRequest (Some plan))) w)
  = Returned response ->
  run env (ReadResource (mkReadRequest (State response)))
    (world_of (run env (CreateResource (mkCreateRequest (Some plan))) w))
  = (Returned response, w2,
     [Event (GetOrder (Itoa (Order.ID order))) (Ok order')]).
Proof.
  intros E Hlen E' Hitems. rewrite Create_run. cbv zeta.
  rewrite E. cbn [fst snd]. rewrite overwriteItems_from_start.
  rewrite Hlen, Nat.leb_refl, skipn_all, app_nil_r.
  unfold outcome_of, world_of. cbn [fst snd]. intros [= <-]. cbn [State].
  rewrite Read_run. cbv zeta.
  cbn [orderResourceModel.ID orderResourceModel.LastUpdated
         types.ValueString].
  rewrite E'. cbn [fst snd]. rewrite Hitems. reflexivity.
Qed.

Lemma Read_after_Create_stable_witness :
  run (Remote.world stamp)
    (ReadResource
       (mkReadRequest
          (Some (orderResourceModel.mk (types.StringValue "42")
                   [fromOrderItem
                      (OrderItem.mk (Coffee.mk 1 "" "" "" 0 "" []) 2)]
                   (types.StringValue stamp)))))
    (Remote.mk [Order.mk 42 [OrderItem.mk (Coffee.mk 1 "" "" "" 0 "" []) 2]]
       43 [])
  = (Returned
       (mkResponse
          (Some (orderResourceModel.mk (types.StringValue "42")
                   [fromOrderItem
                      (OrderItem.mk (Coffee.mk 1 "" "" "" 0 "" []) 2)]
                   (types.StringValue stamp)))
          []),
     Remote.mk [Order.mk 42 [OrderItem.mk (Coffee.mk 1 "" "" "" 0 "" []) 2]]
       43 [],
     [Event (GetOrder "42")
        (Ok (Order.mk 42 [OrderItem.mk (Coffee.mk 1 "" "" "" 0 "" []) 2]))]).
Proof.
  apply (Read_after_Create_stable (schema.plan None [planned_item 1 2])
           (order := Order.mk 42
                       [OrderItem.mk (Coffee.mk 1 "" "" "" 0 "" []) 2])
           (order' := Order.mk 42
                        [OrderItem.mk (Coffee.mk 1 "" "" "" 0 "" []) 2])
           (Remote.world stamp) (Remote.mk [] 42 [])
           (w1 := Remote.mk
                    [Order.mk 42
                       [OrderItem.mk (Coffee.mk 1 "" "" "" 0 "" []) 2]] 43 [])
           (w2 := Remote.mk
                    [Order.mk 42
                       [OrderItem.mk (Coffee.mk 1 "" "" "" 0 "" []) 2]] 43 [])
           (response :=
              mkResponse
                (Some (orderResourceModel.mk (types.StringValue "42")
                         [fromOrderItem
                            (OrderItem.mk (Coffee.mk 1 "" "" "" 0 "" []) 2)]
                         (types.StringValue stamp)))
                [])).
  - vm_compute. reflexivity.
  - reflexivity.
  - vm_compute. reflexivity.
  - reflexivity.
  - vm_compute. reflexivity.
Defined.

(** X11.  A refresh of an imported order stores the key given on import,
    the items the client reads under that key, and no time of a last
    update: the attribute stays null until an update or a new create. *)
Theorem Read_after_ImportState (requestID : string) (order : Order.t)
    (W : Type) (env : World W) (w w' : W) :
  client env (GetOrder requestID) w = (Ok order, w') ->
  run env
    (ReadResource
       (mkReadRequest (State (ImportState requestID (mkResponse None [])))))
    w
  = (Returned
       (mkResponse
          (Some (orderResourceModel.mk (types.StringValue requestID)
                   (map fromOrderItem (Order.Items order))
                   types.StringNull))
          []),
     w', [Event (GetOrder requestID) (Ok order)]).
Proof.
  intros E. unfold ImportState, ImportStatePassthroughID.
  cbn [andb with_State State SetAttribute_id].
  rewrite Read_run. cbv zeta.
  cbn [orderResourceModel.ID orderResourceModel.LastUpdated
         types.ValueString].
  rewrite E. reflexivity.
Qed.

Lemma Read_after_ImportState_witness :
  run (Remote.world stamp)
    (ReadResource
       (mkReadRequest (State (ImportState "42" (mkResponse None [])))))
    remote42
  = (Returned
       (mkResponse
          (Some (orderResourceModel.mk (types.StringValue "42")
                   [fromOrderItem (OrderItem.mk latte 2)] types.StringNull))
          []),
     remote42, [Event (GetOrder "42") (Ok order42)]).
Proof.
  apply (Read_after_ImportState "42" (order := order42) (Remote.world stamp)
           remote42 (w' := remote42)).
  vm_compute. reflexivity.
Defined.

(** * The coffees data source *)

Lemma appendIngredients_map (ingredients : list coffeesIngredientsModel.t)
    (wire : list Ingredient.t) :
  coffeesDataSource.appendIngredients ingredients wire
  = ingredients
      ++ map (fun ingredient =>
                coffeesIngredientsModel.mk
                  (types.Int64Value (int64_of_int (Ingredient.ID ingredient))))
           wire.
Proof.
  revert ingredients.
  induction wire as [|ingredient rest IH]; intros ingredients; cbn.
  - now rewrite app_nil_r.
  - rewrite IH, <- app_assoc. reflexivity.
Qed.

Lemma appendCoffees_map (stateCoffees : list coffeesModel.t)
    (coffees : list Coffee.t) :
  coffeesDataSource.appendCoffees stateCoffees coffees
  = stateCoffees ++ map coffeesDataSource.coffeeState coffees.
Proof.
  revert stateCoffees.
  induction coffees as [|coffee rest IH]; intros stateCoffees; cbn.
  - now rewrite app_nil_r.
  - rewrite IH, <- app_assoc. reflexivity.
Qed.

Lemma coffeeState_model_of (coffee : Coffee.t) :
  coffee_in_range coffee ->
  coffeesDataSource.coffeeState coffee = coffee_model_of coffee.
Proof.
  intros [Hid Hing]. unfold coffeesDataSource.coffeeState, coffee_model_of.
  rewrite appendIngredients_map. cbn [app].
  unfold int64_of_int. rewrite (wrap64_in_range Hid). f_equal.
  apply map_ext_in. intros ingredient Hin.
  rewrite Forall_forall in Hing. now rewrite (wrap64_in_range (Hing _ Hin)).
Qed.

(** X12.  A read of the data source whose client call succeeds stores the
    catalogue as the client gave it: one model per coffee, in the client's
    order, each with the coffee's fields and one identifier per ingredient,
    in order, under the identifier [placeholder].  What the state held
    before is dropped, and the diagnostics are as they were. *)
Theorem coffees_Read_maps_catalogue (W : Type)
    (GetCoffees : W -> result (list Coffee.t) * W)
    (resp : datasource.ReadResponse) (w w' : W) (coffees : list Coffee.t) :
  GetCoffees w = (Ok coffees, w') ->
  Forall coffee_in_range coffees ->
  coffeesDataSource.Read GetCoffees resp w
  = (datasource.mkReadResponse
       (Some (coffeesDataSourceModel.mk (types.StringValue "placeholder")
                (map coffee_model_of coffees)))
       (datasource.Diagnostics resp),
     w').
Proof.
  intros E Hrange. unfold coffeesDataSource.Read. rewrite E.
  rewrite appendCoffees_map. cbn [app coffeesDataSourceModel.Coffees
                                    coffeesDataSourceModel.zero diag.Append].
  do 4 f_equal. apply map_ext_in. intros coffee Hin.
  apply coffeeState_model_of. rewrite Forall_forall in Hrange.
  now apply Hrange.
Qed.

Lemma coffees_Read_maps_catalogue_witness :
  coffeesDataSource.Read (fun w : unit => (Ok catalogue, w))
    (datasource.mkReadResponse None []) tt
  = (datasource.mkReadResponse
       (Some (coffeesDataSourceModel.mk (types.StringValue "placeholder")
                [coffee_model_of latte; coffee_model_of vaulatte]))
       [],
     tt).
Proof.
  apply (coffees_Read_maps_catalogue (fun w : unit => (Ok catalogue, w))
           (datasource.mkReadResponse None []) tt (w' := tt)
           (coffees := catalogue)).
  - reflexivity.
  - repeat constructor; unfold int64_range; cbn; lia.
Defined.

(** X13.  A read of the data source whose client call fails leaves the state
    of the response as it is, keeps the diagnostics the response held, in
    order, and returns with an error diagnostic. *)
Theorem coffees_Read_error_keeps_state (W : Type)
    (GetCoffees : W -> result (list Coffee.t) * W)
    (resp : datasource.ReadResponse) (w w' : W) (err : error) :
  GetCoffees w = (Err err, w') ->
  exists extra,
    coffeesDataSource.Read GetCoffees resp w
    = (datasource.mkReadResponse (datasource.State resp)
         (datasource.Diagnostics resp ++ extra),
       w')
    /\ diag.HasError (datasource.Diagnostics resp ++ extra) = true
    /\ (extra = []
        \/ extra = [diag.NewErrorDiagnostic "Unable to Read HashiCups Coffees"
                      (Error err)]).
Proof.
  intros E. unfold coffeesDataSource.Read. rewrite E.
  pose proof (HasError_AddError (datasource.Diagnostics resp)
                "Unable to Read HashiCups Coffees" (Error err)) as Herr.
  unfold diag.AddError in *. cbn [diag.Append] in *.
  destruct (diag.Contains (datasource.Diagnostics resp) _).
  - exists []. rewrite app_nil_r. repeat split; [exact Herr|now left].
  - eexists. repeat split; [exact Herr|now right].
Qed.

Lemma coffees_Read_error_keeps_state_witness :
  exists extra,
    coffeesDataSource.Read (fun w : unit => (Err unprocessable, w))
      (datasource.mkReadResponse None []) tt
    = (datasource.mkReadResponse None ([] ++ extra), tt)
    /\ diag.HasError ([] ++ extra) = true
    /\ (extra = []
        \/ extra = [diag.NewErrorDiagnostic "Unable to Read HashiCups Coffees"
                      (Error unprocessable)]).
Proof.
  apply (coffees_Read_error_keeps_state
           (fun w : unit => (Err unprocessable, w))
           (datasource.mkReadResponse None []) tt (w' := tt)
           (err := unprocessable)).
  reflexivity.
Defined.

(** * Type names and clients *)

Lemma last_ascii_app (p : string) (c : ascii) (s : string) :
  last_ascii (p ++ String c s) = last_ascii (String c s).
Proof.
  induction p as [|x p IH]; [reflexivity|].
  change (String x p ++ String c s)%string
    with (String x (p ++ String c s)).
  cbn [last_ascii]. destruct (p ++ String c s)%string eqn:E.
  - destruct p; discriminate E.
  - exact IH.
Qed.

(** X14.  The type name of the order resource and the type name of the
    coffees data source differ, whatever the provider's names are. *)
Theorem type_names_differ (orderProvider coffeesProvider : string) :
  String.eqb (orderResource.Metadata orderProvider)
    (coffeesDataSource.Metadata coffeesProvider)
  = false.
Proof.
  apply String.eqb_neq. intros H.
  apply (f_equal last_ascii) in H.
  unfold orderResource.Metadata, coffeesDataSource.Metadata in H.
  rewrite !last_ascii_app in H. discriminate H.
Qed.

(** X15.  However often the order resource is configured, its client is the
    one of the last request that came with provider data, or the one it had
    when no request did; a request whose provider data is not a client
    pointer panics.  The data source takes its client in the same way. *)
Theorem Configure_keeps_last_client (Client : Type)
    (requests : list (option (any Client))) (o : orderResource.t Client)
    (c : coffeesDataSource.t Client) (ProviderData : option (any Client)) :
  orderResource.configure_all o requests
  = (if existsb is_other requests then None
     else Some (orderResource.mk
                  (last_client (orderResource.client o) requests)))
  /\ option_map (@coffeesDataSource.client Client)
       (coffeesDataSource.Configure c ProviderData)
     = option_map (@orderResource.client Client)
         (orderResource.Configure
            (orderResource.mk (coffeesDataSource.client c)) ProviderData).
Proof.
  split.
  - revert o. induction requests as [|request rest IH]; intros o.
    + destruct o. reflexivity.
    + cbn [orderResource.configure_all existsb last_client fold_left].
      destruct request as [[p|]|];
        cbn [orderResource.Configure is_other orb].
      * rewrite IH. reflexivity.
      * reflexivity.
      * rewrite IH. reflexivity.
  - destruct c, ProviderData as [[p|]|]; reflexivity.
Qed.

(** * What the operations call *)

(** X16.  An operation makes only calls of its own kind, in a fixed order,
    and never repeats one: the calls of a run are the first calls of
    [CreateOrder] for a create, of [GetOrder] for a refresh, of
    [DeleteOrder] for a destroy, and of [UpdateOrder] then [GetOrder] for
    an update.  So a refresh never writes to the remote, and no operation
    makes a call a second time, after a failure or otherwise. *)
Theorem operations_call_their_own (op : operation) (W : Type)
    (env : World W) (w : W) :
  map kind_of (trace_of (run env (program op) w))
  = firstn (List.length (trace_of (run env (program op) w))) (script op)
  /\ (List.length (trace_of (run env (program op) w))
      <= List.length (script op))%nat
  /\ NoDup (map kind_of (trace_of (run env (program op) w))).
Proof.
  assert (N1 : forall k : call_kind, NoDup [k])
    by (intros k; constructor; [intros []|constructor]).
  assert (N2 : NoDup [KUpdateOrder; KGetOrder]).
  { constructor; [|apply N1]. intros [H|[]]. discriminate H. }
  destruct op as [[plan]|[state]|[plan state]|[state]];
    cbn [program script].
  - destruct plan as [plan|];
      [|cbn; repeat split; [lia|constructor]].
    rewrite Create_run. cbv zeta. cbn. repeat split; [lia|apply N1].
  - destruct state as [state|];
      [|cbn; repeat split; [lia|constructor]].
    rewrite Read_run. cbv zeta. cbn. repeat split; [lia|apply N1].
  - destruct plan as [plan|];
      [|cbn; repeat split; [lia|constructor]].
    rewrite Update_run. cbv zeta.
    destruct (fst (client env _ w)) as [updated|err].
    + destruct (fst (client env (GetOrder _) _)) as [order|err];
        cbn; (repeat split; [lia|apply N2]).
    + cbn. repeat split; [lia|apply N1].
  - destruct state as [state|];
      [|cbn; repeat split; [lia|constructor]].
    rewrite Delete_run. cbv zeta. cbn. repeat split; [lia|apply N1].
Qed.

(** X17.  A refresh right after an update changes nothing: when the client
    reads the order back a second time, under the key of the plan, with the
    items of the first read back, the refresh returns the response of the
    update, with the time of the update still in it. *)
Theorem Read_after_Update_stable (plan : orderResourceModel.t)
    (state : tfsdk.State) (updated order order' : Order.t) (W : Type)
    (env : World W) (w w1 w2 w3 : W) (response : Response) :
  let planID := types.ValueString (orderResourceModel.ID plan) in
  let sent := map toOrderItem (orderResourceModel.Items plan) in
  let update := UpdateResource (mkUpdateRequest (Some plan) state) in
  client env (UpdateOrder planID sent) w = (Ok updated, w1) ->
  client env (GetOrder planID) w1 = (Ok order, w2) ->
  client env (GetOrder planID) (snd (clock env w2)) = (Ok order', w3) ->
  Order.Items order' = Order.Items order ->
  outcome_of (run env update w) = Returned response ->
  run env (ReadResource (mkReadRequest (State response)))
    (world_of (run env update w))
  = (Returned response, w3, [Event (GetOrder planID) (Ok order')]).
Proof.
  cbv zeta. intros E1 E2 E3 Hitems. rewrite Update_run. cbv zeta.
  rewrite E1. cbn [fst snd]. rewrite E2. cbn [fst snd].
  unfold outcome_of, world_of. cbn [fst snd]. intros [= <-]. cbn [State].
  rewrite Read_run. cbv zeta.
  cbn [orderResourceModel.ID orderResourceModel.LastUpdated].
  rewrite E3. cbn [fst snd]. rewrite Hitems. reflexivity.
Qed.

Lemma Read_after_Update_stable_witness :
  run answering42
    (ReadResource (mkReadRequest (Some state42))) tt
  = (Returned (mkResponse (Some state42) []), tt,
     [Event (GetOrder "42") (Ok order42)]).
Proof.
  apply (Read_after_Update_stable
           (schema.plan (Some state42) [planned_item 1 3]) (Some state42)
           (updated := order42) (order := order42) (order' := order42)
           answering42 tt (w1 := tt) (w2 := tt) (w3 := tt)
           (response := mkResponse (Some state42) [])).
  - reflexivity.
  - reflexivity.
  - reflexivity.
  - reflexivity.
  - reflexivity.
Defined.
